(** * fastmiddle: three-finger click to middle click

    A shallow embedding of [backend.c] (the modular variant) and [main.c]
    (the monolithic variant).  The program is a set of callbacks driven by
    macOS: the multitouch driver reports frames to [touch_callback], the
    event tap hands pointer events to [mouse_callback], IOKit reports new
    devices to [device_notification_callback].  The C code is written against
    Core Foundation, Core Graphics, IOKit and the private Multitouch
    framework; each of these calls is modelled below as an operation on a
    [world] that holds the objects the OS owns, the program's own globals and
    the history of calls made so far. *)

From stdpp Require Import base numbers option list gmap strings.

Local Open Scope Z_scope.

(** ** C values *)

(** Every [...Ref] of the C code is a pointer; [NULL] is address 0. *)
Abbreviation ptr := Z (only parsing).
Definition NULL : ptr := 0.

(** [int] and [CFIndex] values are kept as integers of [Z]: the program
    copies and compares them, and the one counter it increments, the [i] of
    the loops, stays below 301 or below the length of an array. *)

(** A [double] is kept as its 64 bit pattern: the program stores and passes
    coordinates and timestamps but never computes with them. *)
Abbreviation double := Z (only parsing).

(** [CGEventType] (a [uint32_t]) and the members the program names. *)
Abbreviation CGEventType := Z (only parsing).
Definition kCGEventLeftMouseDown : CGEventType := 1.
Definition kCGEventLeftMouseUp : CGEventType := 2.
Definition kCGEventOtherMouseDown : CGEventType := 25.
Definition kCGEventOtherMouseUp : CGEventType := 26.

(** [CGEventField] and [CGMouseButton]. *)
Definition kCGMouseEventButtonNumber : Z := 3.
Definition kCGMouseButtonCenter : Z := 2.

Definition KERN_SUCCESS : Z := 0.

(** The options of [CGEventTapCreate] the program passes. *)
Definition kCGHIDEventTap : Z := 0.
Definition kCGHeadInsertEventTap : Z := 0.
Definition kCGEventTapOptionDefault : Z := 0.

(** ** Core Graphics events *)

Record CGPoint := { pt_x : double; pt_y : double }.

(** What a [CGEventRef] points to: the category of the event, when and where
    it happened, the modifier flags, and the integer fields indexed by
    [CGEventField] (button number, click count, deltas, ...). *)
Record CGEvent := {
  ev_type : CGEventType;
  ev_timestamp : Z;
  ev_location : CGPoint;
  ev_flags : Z;
  ev_fields : gmap Z Z
}.

Definition with_type (t : CGEventType) (e : CGEvent) : CGEvent :=
  {| ev_type := t; ev_timestamp := ev_timestamp e;
     ev_location := ev_location e; ev_flags := ev_flags e;
     ev_fields := ev_fields e |}.

Definition with_field (f v : Z) (e : CGEvent) : CGEvent :=
  {| ev_type := ev_type e; ev_timestamp := ev_timestamp e;
     ev_location := ev_location e; ev_flags := ev_flags e;
     ev_fields := <[f := v]> (ev_fields e) |}.

(** ** The structs of backend.h *)

Record mt_devices := { array : ptr; len : Z }.

Record fm_state := {
  devices : mt_devices;
  port : ptr;
  tap_event : ptr;
  run_loop_src : ptr
}.

Definition with_devices (d : mt_devices) (s : fm_state) : fm_state :=
  {| devices := d; port := port s; tap_event := tap_event s;
     run_loop_src := run_loop_src s |}.
Definition with_port (p : ptr) (s : fm_state) : fm_state :=
  {| devices := devices s; port := p; tap_event := tap_event s;
     run_loop_src := run_loop_src s |}.
Definition with_tap_event (p : ptr) (s : fm_state) : fm_state :=
  {| devices := devices s; port := port s; tap_event := p;
     run_loop_src := run_loop_src s |}.
Definition with_run_loop_src (p : ptr) (s : fm_state) : fm_state :=
  {| devices := devices s; port := port s; tap_event := tap_event s;
     run_loop_src := p |}.

(** ** Calls into the operating system

    One constructor per call that has an effect outside the program. *)
Inductive os_call :=
| call_MTRegisterContactFrameCallback (device : ptr)
| call_MTDeviceStart (device : ptr) (mode : Z)
| call_MTUnregisterContactFrameCallback (device : ptr)
| call_MTDeviceStop (device : ptr)
| call_MTDeviceRelease (device : ptr)
| call_MTDeviceCreateList
| call_CFRelease (obj : ptr)
| call_IONotificationPortCreate
| call_IONotificationPortDestroy (p : ptr)
| call_IOServiceAddMatchingNotification (p : ptr)
| call_IOObjectRelease (item : Z)
| call_CFRunLoopAddSource (src : ptr)
| call_CFRunLoopRemoveSource (src : ptr)
| call_CGEventTapCreate (tap place options mask : Z)
| call_CGEventTapEnable (tap : ptr) (enable : bool)
| call_CFMachPortCreateRunLoopSource (tap : ptr)
| call_CFRunLoopRun
| call_sleep (seconds : Z)
| call_stderr (msg : string)
| event_dispatched (event : ptr).

Global Instance os_call_eq_dec : EqDecision os_call.
Proof. solve_decision. Defined.

(** What the run loop hands to the program while [CFRunLoopRun] blocks. *)
Inductive dispatch :=
| TouchFrame (device : Z) (fingers : ptr) (nFingers : Z) (timestamp : double) (frame : Z)
| PointerEvent (proxy : ptr) (type : CGEventType) (event : ptr)
| DeviceMatched (iter : Z).

(** The answers of the OS.  The n-th call of an API gets the n-th answer. *)
Record os_oracle := {
  device_list : nat → ptr * list ptr;
  notification_port : ptr;
  matching_notification : Z * list Z;
  event_tap : nat → ptr;
  run_loop_source : nat → ptr;
  run_loop : nat → list dispatch
}.

Record counters := {
  n_lists : nat;
  n_taps : nat;
  n_sources : nat;
  n_runs : nat
}.

(** ** The world *)

Record world := {
  (** [static int current_fingers] *)
  current_fingers : Z;
  (** [static bool is_middle_click] of [mouse_callback] *)
  is_middle_click : bool;
  (** the [struct fm_state] every [state] pointer refers to *)
  state : fm_state;
  (** contents of the live [CFArray]s *)
  cf_arrays : gmap Z (list Z);
  (** the live [CGEvent]s *)
  cg_events : gmap Z CGEvent;
  (** calls made so far, oldest first *)
  trace : list os_call;
  asked : counters
}.

Definition set_current_fingers (n : Z) (w : world) : world :=
  {| current_fingers := n; is_middle_click := is_middle_click w;
     state := state w; cf_arrays := cf_arrays w; cg_events := cg_events w;
     trace := trace w; asked := asked w |}.
Definition set_is_middle_click (b : bool) (w : world) : world :=
  {| current_fingers := current_fingers w; is_middle_click := b;
     state := state w; cf_arrays := cf_arrays w; cg_events := cg_events w;
     trace := trace w; asked := asked w |}.
Definition set_state (s : fm_state) (w : world) : world :=
  {| current_fingers := current_fingers w; is_middle_click := is_middle_click w;
     state := s; cf_arrays := cf_arrays w; cg_events := cg_events w;
     trace := trace w; asked := asked w |}.
Definition set_cf_arrays (m : gmap Z (list Z)) (w : world) : world :=
  {| current_fingers := current_fingers w; is_middle_click := is_middle_click w;
     state := state w; cf_arrays := m; cg_events := cg_events w;
     trace := trace w; asked := asked w |}.
Definition set_cg_events (m : gmap Z CGEvent) (w : world) : world :=
  {| current_fingers := current_fingers w; is_middle_click := is_middle_click w;
     state := state w; cf_arrays := cf_arrays w; cg_events := m;
     trace := trace w; asked := asked w |}.
Definition set_trace (t : list os_call) (w : world) : world :=
  {| current_fingers := current_fingers w; is_middle_click := is_middle_click w;
     state := state w; cf_arrays := cf_arrays w; cg_events := cg_events w;
     trace := t; asked := asked w |}.
Definition set_asked (c : counters) (w : world) : world :=
  {| current_fingers := current_fingers w; is_middle_click := is_middle_click w;
     state := state w; cf_arrays := cf_arrays w; cg_events := cg_events w;
     trace := trace w; asked := c |}.

(** ** The monad of C functions

    A C function either returns, ends the process through [exit], does
    something C or Core Foundation leave undefined, or is still running when
    the fuel given to an unbounded loop is used up. *)
Inductive outcome (A : Type) : Type :=
| Returns (a : A)
| Exits (status : Z)
| Undefined
| Running.
Arguments Returns {A} a.
Arguments Exits {A} status.
Arguments Undefined {A}.
Arguments Running {A}.

Definition M (A : Type) : Type := world → outcome A * world.

Global Instance M_ret : MRet M := λ A a w, (Returns a, w).

Global Instance M_bind : MBind M := λ A B k m w,
  match m w with
  | (Returns a, w') => k a w'
  | (Exits c, w') => (Exits c, w')
  | (Undefined, w') => (Undefined, w')
  | (Running, w') => (Running, w')
  end.

Definition gets {A} (f : world → A) : M A := λ w, (Returns (f w), w).
Definition modify (f : world → world) : M unit := λ w, (Returns tt, f w).
Definition emit (c : os_call) : M unit := modify (λ w, set_trace (trace w ++ [c]) w).
Definition exit {A} (status : Z) : M A := λ w, (Exits status, w).
Definition undefined {A} : M A := λ w, (Undefined, w).
Definition running {A} : M A := λ w, (Running, w).

(** [for (x in l) body]: a loop whose trip count is known on entry. *)
Fixpoint for_each {A} (l : list A) (body : A → M unit) : M unit :=
  match l with
  | [] => mret tt
  | x :: l' => body x ;; for_each l' body
  end.

(** [for (i = i0; cond; i++) body] *)
Fixpoint for_int (fuel : nat) (i : Z) (cond : Z → M bool) (body : Z → M unit) : M unit :=
  match fuel with
  | O => running
  | S fuel' =>
      c ← cond i;
      if c : bool then body i ;; for_int fuel' (i + 1) cond body else mret tt
  end.

(** ** The system calls

    Calls that only have an effect are recorded in the trace; calls that
    answer take their answer from the oracle; calls that read or write an
    object the OS owns act on the world. *)

Definition MTRegisterContactFrameCallback (device : ptr)
    (callback : Z → ptr → Z → double → Z → M Z) : M unit :=
  emit (call_MTRegisterContactFrameCallback device).
Definition MTDeviceStart (device : ptr) (mode : Z) : M unit :=
  emit (call_MTDeviceStart device mode).
Definition MTUnregisterContactFrameCallback (device : ptr)
    (callback : Z → ptr → Z → double → Z → M Z) : M unit :=
  emit (call_MTUnregisterContactFrameCallback device).
Definition MTDeviceStop (device : ptr) : M unit :=
  emit (call_MTDeviceStop device).
Definition MTDeviceRelease (device : ptr) : M unit :=
  emit (call_MTDeviceRelease device).
Definition CFRelease (obj : ptr) : M unit :=
  emit (call_CFRelease obj).
Definition IONotificationPortDestroy (p : ptr) : M unit :=
  emit (call_IONotificationPortDestroy p).
Definition IOObjectRelease (item : Z) : M unit :=
  emit (call_IOObjectRelease item).
Definition CFRunLoopAddSource (src : ptr) : M unit :=
  emit (call_CFRunLoopAddSource src).
Definition CFRunLoopRemoveSource (src : ptr) : M unit :=
  emit (call_CFRunLoopRemoveSource src).
Definition CGEventTapEnable (tap : ptr) (enable : bool) : M unit :=
  emit (call_CGEventTapEnable tap enable).
Definition sleep (seconds : Z) : M unit :=
  emit (call_sleep seconds).
(** [fputs(msg, stderr)] and [fprintf(stderr, msg)] *)
Definition fputs_stderr (msg : string) : M unit :=
  emit (call_stderr msg).

(** The run loop source of a notification port is identified with the port. *)
Definition IONotificationPortGetRunLoopSource (p : ptr) : ptr := p.

(** [CFArrayGetCount] and [CFArrayGetValueAtIndex] read a live array; Core
    Foundation leaves a dead array or an index out of range undefined. *)
Definition CFArrayGetCount (a : ptr) : M Z :=
  m ← gets cf_arrays;
  match m !! a with
  | Some l => mret (Z.of_nat (length l))
  | None => undefined
  end.

Definition CFArrayGetValueAtIndex (a : ptr) (i : Z) : M ptr :=
  m ← gets cf_arrays;
  match m !! a with
  | Some l =>
      if bool_decide (0 ≤ i) then
        match l !! Z.to_nat i with
        | Some v => mret v
        | None => undefined
        end
      else undefined
  | None => undefined
  end.

(** The setters of Core Graphics write one field of the event they are given
    and do nothing on a reference that is not a live event. *)
Definition CGEventSetType (event : ptr) (type : CGEventType) : M unit :=
  modify (λ w, set_cg_events (alter (with_type type) event (cg_events w)) w).

Definition CGEventSetIntegerValueField (event : ptr) (field value : Z) : M unit :=
  modify (λ w, set_cg_events (alter (with_field field value) event (cg_events w)) w).

Definition bump_lists (c : counters) : counters :=
  {| n_lists := S (n_lists c); n_taps := n_taps c;
     n_sources := n_sources c; n_runs := n_runs c |}.
Definition bump_taps (c : counters) : counters :=
  {| n_lists := n_lists c; n_taps := S (n_taps c);
     n_sources := n_sources c; n_runs := n_runs c |}.
Definition bump_sources (c : counters) : counters :=
  {| n_lists := n_lists c; n_taps := n_taps c;
     n_sources := S (n_sources c); n_runs := n_runs c |}.
Definition bump_runs (c : counters) : counters :=
  {| n_lists := n_lists c; n_taps := n_taps c;
     n_sources := n_sources c; n_runs := S (n_runs c) |}.

(** The handlers the program has installed by the time the run loop runs:
    the frame callback of the devices, the callback of the event tap (its
    [refcon] is the [NULL] given to [CGEventTapCreate]) and the notification
    callback (its [refcon] is the address of the one [mt_devices] of the
    program, which the model does not pass around). *)
Record callbacks := {
  on_touch : Z → ptr → Z → double → Z → M Z;
  on_pointer : ptr → CGEventType → ptr → ptr → M ptr;
  on_device : Z → M unit
}.

Definition deliver (cb : callbacks) (d : dispatch) : M unit :=
  match d with
  | TouchFrame device fingers nFingers timestamp frame =>
      _ ← on_touch cb device fingers nFingers timestamp frame; mret tt
  | PointerEvent proxy type event =>
      out ← on_pointer cb proxy type event NULL;
      emit (event_dispatched out)
  | DeviceMatched iter => on_device cb iter
  end.

Section SystemCalls.
Context (os : os_oracle).

(** A list that is not [NULL] becomes a live array. *)
Definition MTDeviceCreateList : M ptr :=
  n ← gets (λ w, n_lists (asked w));
  modify (λ w, set_asked (bump_lists (asked w)) w) ;;
  emit call_MTDeviceCreateList ;;
  let a := (device_list os n).1 in
  (if bool_decide (a = NULL) then mret tt
   else modify (λ w, set_cf_arrays (<[a := (device_list os n).2]> (cf_arrays w)) w)) ;;
  mret a.

Definition IONotificationPortCreate : M ptr :=
  emit call_IONotificationPortCreate ;;
  mret (notification_port os).

(** Answers the status and the iterator, as the items still to come. *)
Definition IOServiceAddMatchingNotification (p : ptr)
    (callback : Z → M unit) : M (Z * list Z) :=
  emit (call_IOServiceAddMatchingNotification p) ;;
  mret (matching_notification os).

Definition CGEventTapCreate (tap place options mask : Z)
    (callback : ptr → CGEventType → ptr → ptr → M ptr) (refcon : ptr) : M ptr :=
  n ← gets (λ w, n_taps (asked w));
  modify (λ w, set_asked (bump_taps (asked w)) w) ;;
  emit (call_CGEventTapCreate tap place options mask) ;;
  mret (event_tap os n).

Definition CFMachPortCreateRunLoopSource (tap : ptr) : M ptr :=
  n ← gets (λ w, n_sources (asked w));
  modify (λ w, set_asked (bump_sources (asked w)) w) ;;
  emit (call_CFMachPortCreateRunLoopSource tap) ;;
  mret (run_loop_source os n).

(** Blocks, hands over what arrives, and returns when the loop stops. *)
Definition CFRunLoopRun (cb : callbacks) : M unit :=
  n ← gets (λ w, n_runs (asked w));
  modify (λ w, set_asked (bump_runs (asked w)) w) ;;
  emit call_CFRunLoopRun ;;
  for_each (run_loop os n) (deliver cb).
End SystemCalls.

Definition newline : string := String (Ascii.ascii_of_nat 10) EmptyString.

(** ** backend.c *)
Module Backend.

Definition touch_callback (device : Z) (fingers : ptr) (nFingers : Z)
    (timestamp : double) (frame : Z) : M Z :=
  modify (set_current_fingers nFingers) ;;
  mret 0.

Definition mouse_callback (proxy : ptr) (type : CGEventType) (event : ptr)
    (refcon : ptr) : M ptr :=
  fingers ← gets current_fingers;
  middle ← gets is_middle_click;
  if bool_decide (fingers ≠ 3) && negb middle then mret event
  else
    (if bool_decide (type = kCGEventLeftMouseDown) then
       CGEventSetType event kCGEventOtherMouseDown ;;
       CGEventSetIntegerValueField event kCGMouseEventButtonNumber kCGMouseButtonCenter ;;
       modify (set_is_middle_click true)
     else if bool_decide (type = kCGEventLeftMouseUp) then
       CGEventSetType event kCGEventOtherMouseUp ;;
       CGEventSetIntegerValueField event kCGMouseEventButtonNumber kCGMouseButtonCenter ;;
       modify (set_is_middle_click false)
     else mret tt) ;;
    mret event.

Definition devices_register (devs : mt_devices)
    (callback : Z → ptr → Z → double → Z → M Z) : M unit :=
  for_each (seqZ 0 (len devs)) (λ i,
    device ← CFArrayGetValueAtIndex (array devs) i;
    if bool_decide (device ≠ NULL) then
      MTRegisterContactFrameCallback device touch_callback ;;
      MTDeviceStart device 0
    else mret tt).

Definition devices_cleanup (devs : mt_devices) : M unit :=
  for_each (seqZ 0 (len devs)) (λ i,
    device ← CFArrayGetValueAtIndex (array devs) i;
    if bool_decide (device ≠ NULL) then
      MTUnregisterContactFrameCallback device touch_callback ;;
      MTDeviceStop device ;;
      MTDeviceRelease device
    else mret tt).

Definition stop_io_notifications : M unit :=
  st ← gets state;
  if bool_decide (port st ≠ NULL) then
    IONotificationPortDestroy (port st) ;;
    modify (λ w, set_state (with_port NULL (state w)) w)
  else mret tt.

Definition stop_click_loop : M unit :=
  st ← gets state;
  (if bool_decide (tap_event st ≠ NULL) then
     CGEventTapEnable (tap_event st) false ;;
     CFRelease (tap_event st) ;;
     modify (λ w, set_state (with_tap_event NULL (state w)) w)
   else mret tt) ;;
  st ← gets state;
  if bool_decide (run_loop_src st ≠ NULL) then
    CFRunLoopRemoveSource (run_loop_src st) ;;
    CFRelease (run_loop_src st)
  else mret tt.

(** [while ((item = IOIteratorNext(iterator))) IOObjectRelease(item);] *)
Fixpoint drain_iterator (iterator : list Z) : M unit :=
  match iterator with
  | [] => mret tt
  | item :: rest =>
      if bool_decide (item ≠ 0) then IOObjectRelease item ;; drain_iterator rest
      else mret tt
  end.

Section WithOS.
Context (os : os_oracle).

Definition multitouch_devices : M mt_devices :=
  devs ← MTDeviceCreateList os;
  if bool_decide (devs = NULL) then
    fputs_stderr ("Failed to create device list. No multitouch device found." +:+ newline) ;;
    exit 1
  else
    count ← CFArrayGetCount devs;
    if bool_decide (count = 0) then
      fputs_stderr ("No Multitouch devices found." +:+ newline) ;;
      CFRelease devs ;;
      exit 1
    else mret {| array := devs; len := count |}.

(** [devices] is the one [mt_devices] of the program, [state->devices]. *)
Definition devices_refresh : M unit :=
  old ← gets (λ w, devices (state w));
  devices_cleanup old ;;
  new ← multitouch_devices;
  modify (λ w, set_state (with_devices new (state w)) w) ;;
  devices_register new touch_callback.

Definition device_notification_callback (iter : Z) : M unit :=
  devices_refresh.

Definition listen_io_notification : M Z :=
  p ← IONotificationPortCreate os;
  modify (λ w, set_state (with_port p (state w)) w) ;;
  st ← gets state;
  CFRunLoopAddSource (IONotificationPortGetRunLoopSource (port st)) ;;
  st ← gets state;
  r ← IOServiceAddMatchingNotification os (port st) device_notification_callback;
  let kres := r.1 in
  (if bool_decide (kres = KERN_SUCCESS) then drain_iterator r.2 else mret tt) ;;
  mret kres.

Definition handlers : callbacks :=
  {| on_touch := touch_callback;
     on_pointer := mouse_callback;
     on_device := device_notification_callback |}.

(** The [for] loop of [listen_click_loop], entered with [i]; the test
    of the loop is evaluated at most 301 times. *)
Definition tap_loop (fuel : nat) (i : Z) : M unit :=
  for_int fuel i
    (λ i, st ← gets state;
          mret (bool_decide (tap_event st = NULL) && bool_decide (i < 300)))
    (λ i,
       tap ← CGEventTapCreate os kCGHIDEventTap kCGHeadInsertEventTap
               kCGEventTapOptionDefault
               (Z.lor (Z.shiftl 1 kCGEventLeftMouseDown) (Z.shiftl 1 kCGEventLeftMouseUp))
               mouse_callback NULL;
       modify (λ w, set_state (with_tap_event tap (state w)) w) ;;
       st ← gets state;
       if bool_decide (tap_event st = NULL) then sleep 1 else mret tt).

Definition listen_click_loop : M Z :=
  tap_loop 301 0 ;;
  st ← gets state;
  if bool_decide (tap_event st = NULL) then
    fputs_stderr "Failed to create event tap. Check accessibility permissions." ;;
    mret 1
  else
    src ← CFMachPortCreateRunLoopSource os (tap_event st);
    modify (λ w, set_state (with_run_loop_src src (state w)) w) ;;
    st ← gets state;
    if bool_decide (run_loop_src st = NULL) then
      fputs_stderr "Failed to create run loop source." ;;
      mret 1
    else
      CFRunLoopAddSource (run_loop_src st) ;;
      CGEventTapEnable (tap_event st) true ;;
      CFRunLoopRun os handlers ;;
      stop_click_loop ;;
      mret 0.

Definition new_state : M fm_state :=
  d ← multitouch_devices;
  mret {| devices := d; port := NULL; tap_event := NULL; run_loop_src := NULL |}.

(** The [for (;;)] of [run_click_loop]: one unit of fuel per cycle. *)
Fixpoint click_loop (fuel : nat) : M unit :=
  match fuel with
  | O => running
  | S fuel' =>
      r ← listen_click_loop;
      if bool_decide (r ≠ 0) then
        st ← gets state;
        devices_cleanup (devices st) ;;
        stop_io_notifications
      else click_loop fuel'
  end.

Definition run_click_loop (fuel : nat) : M unit :=
  st ← gets state;
  devices_register (devices st) touch_callback ;;
  kres ← listen_io_notification;
  if bool_decide (kres ≠ KERN_SUCCESS) then
    fputs_stderr "Failed to add device notification." ;;
    stop_io_notifications ;;
    st ← gets state;
    devices_cleanup (devices st)
  else click_loop fuel.

Definition state_cleanup : M unit :=
  stop_io_notifications ;;
  stop_click_loop ;;
  st ← gets state;
  devices_cleanup (devices st).

(** The driver kept as a comment at the end of backend.c. *)
Definition main (fuel : nat) : M unit :=
  s ← new_state;
  modify (set_state s) ;;
  run_click_loop fuel ;;
  state_cleanup.
End WithOS.
End Backend.

(** ** main.c

    The monolithic variant has no [struct fm_state]: [devices] is a local of
    [main] (the notification callback gets its address), [port] is a local of
    [main], [tap_event] and [run_loop_src] are locals of [listen_click_loop].
    [devices] and the two locals of [listen_click_loop] are kept in the slots
    of the same name of [state]. *)
Module Main.

Definition touch_callback (device : Z) (fingers : ptr) (nFingers : Z)
    (timestamp : double) (frame : Z) : M Z :=
  modify (set_current_fingers nFingers) ;;
  mret 0.

Definition mouse_callback (proxy : ptr) (type : CGEventType) (event : ptr)
    (refcon : ptr) : M ptr :=
  fingers ← gets current_fingers;
  middle ← gets is_middle_click;
  if bool_decide (fingers ≠ 3) && negb middle then mret event
  else
    (if bool_decide (type = kCGEventLeftMouseDown) then
       CGEventSetType event kCGEventOtherMouseDown ;;
       CGEventSetIntegerValueField event kCGMouseEventButtonNumber kCGMouseButtonCenter ;;
       modify (set_is_middle_click true)
     else if bool_decide (type = kCGEventLeftMouseUp) then
       CGEventSetType event kCGEventOtherMouseUp ;;
       CGEventSetIntegerValueField event kCGMouseEventButtonNumber kCGMouseButtonCenter ;;
       modify (set_is_middle_click false)
     else mret tt) ;;
    mret event.

Definition devices_register (devs : mt_devices)
    (callback : Z → ptr → Z → double → Z → M Z) : M unit :=
  for_each (seqZ 0 (len devs)) (λ i,
    device ← CFArrayGetValueAtIndex (array devs) i;
    if bool_decide (device ≠ NULL) then
      MTRegisterContactFrameCallback device touch_callback ;;
      MTDeviceStart device 0
    else mret tt).

Definition devices_cleanup (devs : mt_devices) : M unit :=
  for_each (seqZ 0 (len devs)) (λ i,
    device ← CFArrayGetValueAtIndex (array devs) i;
    if bool_decide (device ≠ NULL) then
      MTUnregisterContactFrameCallback device touch_callback ;;
      MTDeviceStop device ;;
      MTDeviceRelease device
    else mret tt).

Fixpoint drain_iterator (iterator : list Z) : M unit :=
  match iterator with
  | [] => mret tt
  | item :: rest =>
      if bool_decide (item ≠ 0) then IOObjectRelease item ;; drain_iterator rest
      else mret tt
  end.

Section WithOS.
Context (os : os_oracle).

Definition multitouch_devices : M mt_devices :=
  devs ← MTDeviceCreateList os;
  if bool_decide (devs = NULL) then
    fputs_stderr ("Failed to create device list. No multitouch device found." +:+ newline) ;;
    exit 1
  else
    count ← CFArrayGetCount devs;
    if bool_decide (count = 0) then
      fputs_stderr ("No Multitouch devices found." +:+ newline) ;;
      CFRelease devs ;;
      exit 1
    else mret {| array := devs; len := count |}.

Definition devices_refresh : M unit :=
  old ← gets (λ w, devices (state w));
  devices_cleanup old ;;
  new ← multitouch_devices;
  modify (λ w, set_state (with_devices new (state w)) w) ;;
  devices_register new touch_callback.

Definition device_notification_callback (iter : Z) : M unit :=
  devices_refresh.

Definition listen_io_notification (p : ptr) : M Z :=
  CFRunLoopAddSource (IONotificationPortGetRunLoopSource p) ;;
  r ← IOServiceAddMatchingNotification os p device_notification_callback;
  let kres := r.1 in
  if bool_decide (kres ≠ KERN_SUCCESS) then
    IONotificationPortDestroy p ;;
    mret kres
  else
    drain_iterator r.2 ;;
    mret kres.

Definition handlers : callbacks :=
  {| on_touch := touch_callback;
     on_pointer := mouse_callback;
     on_device := device_notification_callback |}.

Definition tap_loop (fuel : nat) (i : Z) : M unit :=
  for_int fuel i
    (λ i, st ← gets state;
          mret (bool_decide (tap_event st = NULL) && bool_decide (i < 300)))
    (λ i,
       tap ← CGEventTapCreate os kCGHIDEventTap kCGHeadInsertEventTap
               kCGEventTapOptionDefault
               (Z.lor (Z.shiftl 1 kCGEventLeftMouseDown) (Z.shiftl 1 kCGEventLeftMouseUp))
               mouse_callback NULL;
       modify (λ w, set_state (with_tap_event tap (state w)) w) ;;
       st ← gets state;
       if bool_decide (tap_event st = NULL) then sleep 1 else mret tt).

Definition listen_click_loop : M Z :=
  modify (λ w, set_state (with_tap_event NULL (state w)) w) ;;
  tap_loop 301 0 ;;
  st ← gets state;
  if bool_decide (tap_event st = NULL) then
    fputs_stderr "Failed to create event tap. Check accessibility permissions." ;;
    devices_cleanup (devices st) ;;
    mret 1
  else
    src ← CFMachPortCreateRunLoopSource os (tap_event st);
    modify (λ w, set_state (with_run_loop_src src (state w)) w) ;;
    st ← gets state;
    if bool_decide (run_loop_src st = NULL) then
      fputs_stderr "Failed to create run loop source." ;;
      devices_cleanup (devices st) ;;
      mret 1
    else
      CFRunLoopAddSource (run_loop_src st) ;;
      CGEventTapEnable (tap_event st) true ;;
      CFRunLoopRun os handlers ;;
      st ← gets state;
      CGEventTapEnable (tap_event st) false ;;
      CFRunLoopRemoveSource (run_loop_src st) ;;
      CFRelease (run_loop_src st) ;;
      CFRelease (tap_event st) ;;
      mret 0.

Fixpoint click_loop (fuel : nat) (p : ptr) : M Z :=
  match fuel with
  | O => running
  | S fuel' =>
      r ← listen_click_loop;
      if bool_decide (r ≠ 0) then
        st ← gets state;
        devices_cleanup (devices st) ;;
        IONotificationPortDestroy p ;;
        mret 1
      else click_loop fuel' p
  end.

Definition main (fuel : nat) : M Z :=
  d ← multitouch_devices;
  modify (λ w, set_state (with_devices d (state w)) w) ;;
  devices_register d touch_callback ;;
  p ← IONotificationPortCreate os;
  kres ← listen_io_notification p;
  if bool_decide (kres ≠ KERN_SUCCESS) then
    fputs_stderr "Failed to add device notification." ;;
    st ← gets state;
    devices_cleanup (devices st) ;;
    mret 1
  else click_loop fuel p.
End WithOS.
End Main.

(** ** Drivers of the callbacks *)

(** A frame report, as the driver hands it to the frame callback. *)
Record frame_report := {
  fr_device : Z;
  fr_fingers : ptr;
  fr_nFingers : Z;
  fr_timestamp : double;
  fr_frame : Z
}.

(** The device data source delivering a sequence of frames, oldest first. *)
Definition report_frames (callback : Z → ptr → Z → double → Z → M Z)
    (frames : list frame_report) : M unit :=
  for_each frames (λ f,
    _ ← callback (fr_device f) (fr_fingers f) (fr_nFingers f) (fr_timestamp f) (fr_frame f);
    mret tt).

(** ** Vocabulary of the statements *)

(** An event after the two setters of a conversion: category [t], button
    number center, everything else as it was. *)
Definition as_center_button (t : CGEventType) (e : CGEvent) : CGEvent :=
  with_field kCGMouseEventButtonNumber kCGMouseButtonCenter (with_type t e).

(** The world after the event behind [event] has been converted. *)
Definition converted (t : CGEventType) (event : ptr) (w : world) : world :=
  set_cg_events (alter (as_center_button t) event (cg_events w)) w.

(** Concrete inputs. *)
Definition no_questions : counters :=
  {| n_lists := 0; n_taps := 0; n_sources := 0; n_runs := 0 |}.

Definition fresh_state : fm_state :=
  {| devices := {| array := NULL; len := 0 |}; port := NULL;
     tap_event := NULL; run_loop_src := NULL |}.

(** A left button event at (10, 20); button number 0 is the left button and
    field 1 is the click count. *)
Definition left_button_event (t : CGEventType) : CGEvent :=
  {| ev_type := t; ev_timestamp := 1000;
     ev_location := {| pt_x := 10; pt_y := 20 |}; ev_flags := 256;
     ev_fields := {[ kCGMouseEventButtonNumber := 0; 1 := 1 ]} |}.

(** A world with [fingers] contacts, the conversion flag [middle], and one
    live event of category [t] at address 7. *)
Definition click_world (fingers : Z) (middle : bool) (t : CGEventType) : world :=
  {| current_fingers := fingers; is_middle_click := middle;
     state := fresh_state; cf_arrays := ∅;
     cg_events := {[ 7 := left_button_event t ]};
     trace := []; asked := no_questions |}.

(** The handles a walk over [devs] reads: entries [0 .. len - 1] of its
    array, if the array is live and has that many. *)
Definition members (arrays : gmap Z (list Z)) (devs : mt_devices) : option (list ptr) :=
  mapM (λ i, arrays !! array devs ≫= (.!! Z.to_nat i)) (seqZ 0 (len devs)).

(** The calls of one teardown over [handles]: unregister, stop and release
    for each handle that is not [NULL], in order. *)
Definition teardown_calls (handles : list ptr) : list os_call :=
  handles ≫= λ d,
    if bool_decide (d ≠ NULL)
    then [call_MTUnregisterContactFrameCallback d; call_MTDeviceStop d;
          call_MTDeviceRelease d]
    else [].

Definition is_multitouch_call (c : os_call) : bool :=
  match c with
  | call_MTRegisterContactFrameCallback _ | call_MTDeviceStart _ _
  | call_MTUnregisterContactFrameCallback _ | call_MTDeviceStop _
  | call_MTDeviceRelease _ | call_MTDeviceCreateList => true
  | _ => false
  end.

(** [m] only adds calls that satisfy [P] to the trace, however it ends. *)
Definition emits_only (P : os_call → Prop) {A} (m : M A) : Prop :=
  ∀ w, ∃ t, trace (m w).2 = trace w ++ t ∧ Forall P t.

(** One device array at address 50 holding the handles 100 and 101, and the
    set that lists both. *)
Definition two_devices : mt_devices := {| array := 50; len := 2 |}.

Definition two_devices_world : world :=
  {| current_fingers := 0; is_middle_click := false;
     state := with_devices two_devices fresh_state;
     cf_arrays := {[ 50 := [100; 101] ]}; cg_events := ∅;
     trace := []; asked := no_questions |}.

(** An OS that never grants the event tap (the accessibility permission is
    missing); it lists the two devices above. *)
Definition denying_os : os_oracle :=
  {| device_list := λ _, (50, [100; 101]);
     notification_port := 60;
     matching_notification := (KERN_SUCCESS, [90]);
     event_tap := λ _, NULL;
     run_loop_source := λ _, 70;
     run_loop := λ _, [] |}.

(** An OS that grants the tap at request number [k] and refuses the others.
    Its run loop hands over a click made with three fingers that are lifted
    before the button is released, and then stops. *)
Definition granting_os (k : nat) : os_oracle :=
  {| device_list := λ _, (50, [100; 101]);
     notification_port := 60;
     matching_notification := (KERN_SUCCESS, [90]);
     event_tap := λ n, if (n =? k)%nat then 80 else NULL;
     run_loop_source := λ _, 70;
     run_loop := λ _, [TouchFrame 1 NULL 3 0 1;
                       PointerEvent NULL kCGEventLeftMouseDown 7;
                       TouchFrame 1 NULL 0 0 2;
                       PointerEvent NULL kCGEventLeftMouseUp 7] |}.

(** The request for the event tap, as [listen_click_loop] makes it. *)
Definition tap_request : os_call :=
  call_CGEventTapCreate kCGHIDEventTap kCGHeadInsertEventTap kCGEventTapOptionDefault
    (Z.lor (Z.shiftl 1 kCGEventLeftMouseDown) (Z.shiftl 1 kCGEventLeftMouseUp)).

(** [n] requests that were refused, each followed by one second of sleep. *)
Definition failed_attempts (n : nat) : list os_call :=
  concat (replicate n [tap_request; call_sleep 1]).

Definition permission_message : string :=
  "Failed to create event tap. Check accessibility permissions.".

Definition add_taps (n : nat) (c : counters) : counters :=
  {| n_lists := n_lists c; n_taps := (n_taps c + n)%nat;
     n_sources := n_sources c; n_runs := n_runs c |}.

(** The world after [n] refused requests. *)
Definition after_failed_attempts (n : nat) (w : world) : world :=
  set_trace (trace w ++ failed_attempts n) (set_asked (add_taps n (asked w)) w).

(** The world once request number [k] (counted from the requests made
    before) was granted after [k] refusals. *)
Definition after_granted_attempt (os : os_oracle) (k : nat) (w : world) : world :=
  set_state
    (with_tap_event (event_tap os (n_taps (asked w) + k)%nat) (state w))
    (set_trace (trace w ++ failed_attempts k ++ [tap_request])
       (set_asked (add_taps (S k) (asked w)) w)).



(** The pointer events of a script, as the dispatches the OS makes of what
    the tap callback returns for them. *)
Definition dispatched (script : list dispatch) : list os_call :=
  script ≫= λ d,
    match d with
    | PointerEvent _ _ event => [event_dispatched event]
    | _ => []
    end.

Definition is_device_matched (d : dispatch) : bool :=
  match d with DeviceMatched _ => true | _ => false end.

(** A frame that reports exactly three contacts. *)
Definition is_three_finger_frame (d : dispatch) : bool :=
  match d with
  | TouchFrame _ _ nFingers _ _ => bool_decide (nFingers = 3)
  | _ => false
  end.

(** The calls of one registration over [handles]: register and start for
    each handle that is not [NULL], in order. *)
Definition register_calls (handles : list ptr) : list os_call :=
  handles ≫= λ d,
    if bool_decide (d ≠ NULL)
    then [call_MTRegisterContactFrameCallback d; call_MTDeviceStart d 0]
    else [].

(** The items an iterator yields before it yields 0. *)
Fixpoint before_zero (items : list Z) : list Z :=
  match items with
  | [] => []
  | item :: rest => if bool_decide (item ≠ 0) then item :: before_zero rest else []
  end.

(** An OS that refuses the notification (status 5) and would hand out the
    port at address 60. *)
Definition refusing_os : os_oracle :=
  {| device_list := λ _, (50, [100; 101]);
     notification_port := 60;
     matching_notification := (5, [90]);
     event_tap := λ _, 80;
     run_loop_source := λ _, 70;
     run_loop := λ _, [] |}.

(** An OS that grants the tap at request number [k] but never a run loop
    source. *)
Definition sourceless_os (k : nat) : os_oracle :=
  {| device_list := λ _, (50, [100; 101]);
     notification_port := 60;
     matching_notification := (KERN_SUCCESS, [90]);
     event_tap := λ n, if (n =? k)%nat then 80 else NULL;
     run_loop_source := λ _, NULL;
     run_loop := λ _, [] |}.

(** [m] leaves the observation [f] of the world as it was, however it ends. *)
Definition keeps {B A} (f : world → B) (m : M A) : Prop :=
  ∀ w, f (m w).2 = f w.

(** The three handles of the program state other than the device set. *)
Definition handles (w : world) : ptr * ptr * ptr :=
  (port (state w), tap_event (state w), run_loop_src (state w)).

(** Whenever [m] ends the process, the status satisfies [Q]. *)
Definition exits_only (Q : Z → Prop) {A} (m : M A) : Prop :=
  ∀ w c, (m w).1 = Exits c → Q c.

(** The calls a teardown makes: the three per device handle of
    [devices_cleanup] and the one of [stop_io_notifications]. *)
Definition is_teardown_call (c : os_call) : bool :=
  match c with
  | call_MTUnregisterContactFrameCallback _ | call_MTDeviceStop _
  | call_MTDeviceRelease _ | call_IONotificationPortDestroy _ => true
  | _ => false
  end.

(** * Properties *)

(** ** The monad *)

Lemma bind_unfold {A B} (m : M A) (k : A → M B) w :
  (m ≫= k) w =
  match m w with
  | (Returns a, w') => k a w'
  | (Exits c, w') => (Exits c, w')
  | (Undefined, w') => (Undefined, w')
  | (Running, w') => (Running, w')
  end.
Proof. reflexivity. Qed.

Lemma bind_returns {A B} (m : M A) (k : A → M B) w b w' :
  (m ≫= k) w = (Returns b, w') →
  ∃ a w1, m w = (Returns a, w1) ∧ k a w1 = (Returns b, w').
Proof.
  rewrite bind_unfold. destruct (m w) as [[a| | |] w1]; try discriminate.
  intros H. by exists a, w1.
Qed.

Lemma bind_step {A B} (m : M A) (k : A → M B) w a w1 :
  m w = (Returns a, w1) → (m ≫= k) w = k a w1.
Proof. intros H. by rewrite bind_unfold, H. Qed.

(** ** The event transformer *)

Lemma converted_twice t event w :
  set_cg_events
    (alter (with_field kCGMouseEventButtonNumber kCGMouseButtonCenter) event
       (alter (with_type t) event (cg_events w))) w
  = converted t event w.
Proof. unfold converted. f_equal. apply alter_alter_eq. Qed.

(** [mouse_callback] in closed form: it always returns the reference it was
    given, and the world changes as the guard and the [switch] decide. *)
Lemma mouse_callback_unfold proxy type event refcon w :
  Backend.mouse_callback proxy type event refcon w =
  (Returns event,
   if bool_decide (current_fingers w ≠ 3) && negb (is_middle_click w) then w
   else if bool_decide (type = kCGEventLeftMouseDown)
        then set_is_middle_click true (converted kCGEventOtherMouseDown event w)
   else if bool_decide (type = kCGEventLeftMouseUp)
        then set_is_middle_click false (converted kCGEventOtherMouseUp event w)
   else w).
Proof.
  unfold Backend.mouse_callback, mbind, M_bind, gets. cbn.
  destruct (bool_decide (current_fingers w ≠ 3) && negb (is_middle_click w)); [done|].
  destruct (bool_decide (type = kCGEventLeftMouseDown)); cbn.
  { by rewrite <- converted_twice. }
  destruct (bool_decide (type = kCGEventLeftMouseUp)); cbn; [|done].
  by rewrite <- converted_twice.
Qed.

(** C1, as stated, fails: with four contacts and the flag false a left
    button press satisfies the premises of the claim, and [mouse_callback]
    returns it as it came: still a left button press, the flag still
    false. *)
Lemma mouse_down_four_fingers_untouched :
  let w := click_world 4 false kCGEventLeftMouseDown in
  let r := Backend.mouse_callback NULL kCGEventLeftMouseDown 7 NULL w in
  3 ≤ current_fingers w ∧ is_middle_click w = false ∧
  r = (Returns 7, w) ∧
  is_middle_click r.2 = false ∧
  ev_type <$> cg_events r.2 !! 7 = Some kCGEventLeftMouseDown.
Proof. vm_compute. repeat split; congruence. Qed.

(** C1, amended: a left button press that arrives while the flag is false
    and exactly three contacts are reported is rewritten to a middle button
    press (category [kCGEventOtherMouseDown], button number center), the same
    reference is returned and the flag becomes true. *)
Theorem mouse_down_three_fingers_converts proxy event refcon w :
  current_fingers w = 3 →
  is_middle_click w = false →
  Backend.mouse_callback proxy kCGEventLeftMouseDown event refcon w =
    (Returns event,
     set_is_middle_click true (converted kCGEventOtherMouseDown event w)).
Proof.
  intros Hfingers Hflag. rewrite mouse_callback_unfold, Hfingers, Hflag.
  reflexivity.
Qed.

Lemma mouse_down_three_fingers_converts_witness :
  Backend.mouse_callback NULL kCGEventLeftMouseDown 7 NULL
    (click_world 3 false kCGEventLeftMouseDown) =
  (Returns 7,
   set_is_middle_click true
     (converted kCGEventOtherMouseDown 7 (click_world 3 false kCGEventLeftMouseDown))).
Proof. apply mouse_down_three_fingers_converts; reflexivity. Defined.

(** C2, as stated, fails: with exactly three contacts and the flag false a
    left button release does not pass the guard, and the [switch] rewrites
    it to a middle button release. *)
Lemma mouse_up_three_fingers_rewritten :
  let w := click_world 3 false kCGEventLeftMouseUp in
  let r := Backend.mouse_callback NULL kCGEventLeftMouseUp 7 NULL w in
  is_middle_click w = false ∧
  r ≠ (Returns 7, w) ∧
  ev_type <$> cg_events r.2 !! 7 = Some kCGEventOtherMouseUp ∧
  (ev_fields <$> cg_events r.2 !! 7) ≫= (.!! kCGMouseEventButtonNumber)
    = Some kCGMouseButtonCenter.
Proof.
  cbv zeta. rewrite mouse_callback_unfold.
  split; [reflexivity|]. split; [|vm_compute; split; reflexivity].
  intros H. apply (f_equal (λ r, ev_type <$> cg_events r.2 !! 7)) in H.
  vm_compute in H. discriminate.
Qed.

(** C2, amended: a left button release that arrives while the flag is false
    comes back as the same reference and leaves the flag false whatever the
    contact count is, and it passes through unmodified (the world is left as
    it was) for every contact count other than exactly 3. *)
Theorem mouse_up_idle_passes proxy event refcon w :
  is_middle_click w = false →
  ∃ w', Backend.mouse_callback proxy kCGEventLeftMouseUp event refcon w
          = (Returns event, w') ∧
        is_middle_click w' = false ∧
        (current_fingers w ≠ 3 → w' = w).
Proof.
  intros Hflag. rewrite mouse_callback_unfold, Hflag. cbn.
  eexists; split; [reflexivity|].
  case_bool_decide; cbn; [done|].
  split; [done|]. intros Hne. by destruct Hne.
Qed.

Lemma mouse_up_idle_passes_witness :
  ∃ w', Backend.mouse_callback NULL kCGEventLeftMouseUp 7 NULL
          (click_world 2 false kCGEventLeftMouseUp) = (Returns 7, w') ∧
        is_middle_click w' = false ∧
        (current_fingers (click_world 2 false kCGEventLeftMouseUp) ≠ 3 →
         w' = click_world 2 false kCGEventLeftMouseUp).
Proof. apply mouse_up_idle_passes; reflexivity. Defined.

(** C3, as stated, fails: a left button press that arrives while the flag
    is true does not come back untouched; with no contact at all its
    category and its button number are rewritten. *)
Lemma mouse_down_mid_gesture_rewritten :
  let w := click_world 0 true kCGEventLeftMouseDown in
  let r := Backend.mouse_callback NULL kCGEventLeftMouseDown 7 NULL w in
  is_middle_click w = true ∧
  ev_type <$> cg_events w !! 7 = Some kCGEventLeftMouseDown ∧
  ev_type <$> cg_events r.2 !! 7 = Some kCGEventOtherMouseDown ∧
  (ev_fields <$> cg_events w !! 7) ≫= (.!! kCGMouseEventButtonNumber) = Some 0 ∧
  (ev_fields <$> cg_events r.2 !! 7) ≫= (.!! kCGMouseEventButtonNumber)
    = Some kCGMouseButtonCenter.
Proof. vm_compute. repeat split; reflexivity. Qed.

(** C3, amended: a left button press that arrives while the flag is already
    true is rewritten to a middle button press, the same reference is
    returned and the flag stays true, for every contact count. *)
Theorem mouse_down_mid_gesture_converts proxy event refcon w :
  is_middle_click w = true →
  Backend.mouse_callback proxy kCGEventLeftMouseDown event refcon w =
    (Returns event,
     set_is_middle_click true (converted kCGEventOtherMouseDown event w)).
Proof.
  intros Hflag. rewrite mouse_callback_unfold, Hflag.
  by rewrite andb_false_r.
Qed.

Lemma mouse_down_mid_gesture_converts_witness :
  Backend.mouse_callback NULL kCGEventLeftMouseDown 7 NULL
    (click_world 0 true kCGEventLeftMouseDown) =
  (Returns 7,
   set_is_middle_click true
     (converted kCGEventOtherMouseDown 7 (click_world 0 true kCGEventLeftMouseDown))).
Proof. apply mouse_down_mid_gesture_converts; reflexivity. Defined.

(** C4: a left button release that arrives while the flag is true is
    rewritten to a middle button release (category [kCGEventOtherMouseUp],
    button number center), the same reference is returned and the flag
    becomes false, for every contact count. *)
Theorem mouse_up_mid_gesture_converts proxy event refcon w :
  is_middle_click w = true →
  Backend.mouse_callback proxy kCGEventLeftMouseUp event refcon w =
    (Returns event,
     set_is_middle_click false (converted kCGEventOtherMouseUp event w)).
Proof.
  intros Hflag. rewrite mouse_callback_unfold, Hflag.
  by rewrite andb_false_r.
Qed.

(** The fingers were lifted before the button was released. *)
Lemma mouse_up_mid_gesture_converts_witness :
  Backend.mouse_callback NULL kCGEventLeftMouseUp 7 NULL
    (click_world 0 true kCGEventLeftMouseUp) =
  (Returns 7,
   set_is_middle_click false
     (converted kCGEventOtherMouseUp 7 (click_world 0 true kCGEventLeftMouseUp))).
Proof. apply mouse_up_mid_gesture_converts; reflexivity. Defined.

(** What a conversion leaves behind [event], and that it leaves every other
    event alone. *)
Lemma converted_lookup t event w :
  cg_events (converted t event w) !! event = as_center_button t <$> cg_events w !! event.
Proof. apply lookup_alter_eq. Qed.

Lemma converted_lookup_ne t event other w :
  other ≠ event → cg_events (converted t event w) !! other = cg_events w !! other.
Proof. intros Hne. cbn. by rewrite lookup_alter_ne. Qed.

Lemma as_center_button_type t e : ev_type (as_center_button t e) = t.
Proof. reflexivity. Qed.

Lemma as_center_button_number t e :
  ev_fields (as_center_button t e) !! kCGMouseEventButtonNumber = Some kCGMouseButtonCenter.
Proof. cbn. apply lookup_insert_eq. Qed.

Lemma as_center_button_frame t e :
  ev_timestamp (as_center_button t e) = ev_timestamp e ∧
  ev_location (as_center_button t e) = ev_location e ∧
  ev_flags (as_center_button t e) = ev_flags e ∧
  ∀ f, f ≠ kCGMouseEventButtonNumber →
       ev_fields (as_center_button t e) !! f = ev_fields e !! f.
Proof.
  repeat split. intros f Hne. cbn. by rewrite lookup_insert_ne.
Qed.

(** C8: whatever the category, the flag and the contact count are,
    [mouse_callback] returns (it neither exits nor misbehaves) and returns
    the reference it was given.  No event appears or disappears, every other
    event is as it was, and of the event behind the reference only the
    category and the button number can differ: timestamp, location, flags
    and every other integer field are as they were.  Nothing is asked of the
    OS, and the contact count and the program state are left alone. *)
Theorem mouse_callback_frame proxy type event refcon w :
  ∃ w', Backend.mouse_callback proxy type event refcon w = (Returns event, w') ∧
        dom (cg_events w') = dom (cg_events w) ∧
        (∀ other, other ≠ event → cg_events w' !! other = cg_events w !! other) ∧
        (∀ e, cg_events w !! event = Some e →
           ∃ e', cg_events w' !! event = Some e' ∧
                 ev_timestamp e' = ev_timestamp e ∧
                 ev_location e' = ev_location e ∧
                 ev_flags e' = ev_flags e ∧
                 ∀ f, f ≠ kCGMouseEventButtonNumber →
                      ev_fields e' !! f = ev_fields e !! f) ∧
        trace w' = trace w ∧
        current_fingers w' = current_fingers w ∧
        state w' = state w ∧
        cf_arrays w' = cf_arrays w.
Proof.
  rewrite mouse_callback_unfold. eexists; split; [reflexivity|].
  assert (Hconv : ∀ t b e, cg_events w !! event = Some e →
            ∃ e', cg_events (set_is_middle_click b (converted t event w)) !! event = Some e' ∧
                  ev_timestamp e' = ev_timestamp e ∧
                  ev_location e' = ev_location e ∧
                  ev_flags e' = ev_flags e ∧
                  ∀ f, f ≠ kCGMouseEventButtonNumber →
                       ev_fields e' !! f = ev_fields e !! f).
  { intros t b e He. exists (as_center_button t e). split.
    - change (cg_events (converted t event w) !! event = Some (as_center_button t e)).
      by rewrite converted_lookup, He.
    - apply as_center_button_frame. }
  assert (Hsame : ∀ e, cg_events w !! event = Some e →
            ∃ e', cg_events w !! event = Some e' ∧
                  ev_timestamp e' = ev_timestamp e ∧
                  ev_location e' = ev_location e ∧
                  ev_flags e' = ev_flags e ∧
                  ∀ f, f ≠ kCGMouseEventButtonNumber →
                       ev_fields e' !! f = ev_fields e !! f).
  { intros e He. by exists e. }
  destruct (bool_decide (current_fingers w ≠ 3) && negb (is_middle_click w));
    [by repeat split|].
  destruct (bool_decide (type = kCGEventLeftMouseDown)).
  { repeat split; try done.
    - cbn. apply dom_alter_L.
    - intros other Hne. cbn. by rewrite lookup_alter_ne.
    - apply Hconv. }
  destruct (bool_decide (type = kCGEventLeftMouseUp)); [|by repeat split].
  repeat split; try done.
  - cbn. apply dom_alter_L.
  - intros other Hne. cbn. by rewrite lookup_alter_ne.
  - apply Hconv.
Qed.

(** ** The contact tracker *)

Lemma report_frames_overwrites frames w :
  report_frames Backend.touch_callback frames w =
  (Returns tt,
   match last frames with
   | Some f => set_current_fingers (fr_nFingers f) w
   | None => w
   end).
Proof.
  revert w. induction frames as [|f frames IH]; intros w; [done|].
  unfold report_frames in *. cbn [for_each].
  rewrite (bind_step _ _ w tt (set_current_fingers (fr_nFingers f) w)) by reflexivity.
  rewrite IH.
  destruct frames as [|g frames]; [done|].
  rewrite last_cons_cons.
  destruct (last (g :: frames)) eqn:Hlast; [done|].
  by apply last_None in Hlast.
Qed.

(** C5: after any finite sequence of frame reports that ends with the
    report [f], the stored count is the count [f] carries, whatever the
    earlier reports and the earlier count were; each report returns, and
    nothing but the count changes. *)
Theorem last_frame_wins frames f w :
  report_frames Backend.touch_callback (frames ++ [f]) w =
    (Returns tt, set_current_fingers (fr_nFingers f) w) ∧
  current_fingers (report_frames Backend.touch_callback (frames ++ [f]) w).2 =
    fr_nFingers f.
Proof.
  rewrite report_frames_overwrites, last_snoc. done.
Qed.

(** ** The two variants *)

(** C10: the callbacks of main.c and of backend.c are the same functions:
    on every argument and every world they return the same value and leave
    the same world (event, flag and contact count included). *)
Theorem main_callbacks_agree_with_backend :
  (∀ proxy type event refcon w,
     Main.mouse_callback proxy type event refcon w =
     Backend.mouse_callback proxy type event refcon w) ∧
  (∀ device fingers nFingers timestamp frame w,
     Main.touch_callback device fingers nFingers timestamp frame w =
     Backend.touch_callback device fingers nFingers timestamp frame w).
Proof. split; reflexivity. Qed.

(** ** Worlds and traces *)

Lemma set_state_same w : set_state (state w) w = w.
Proof. by destruct w. Qed.

Lemma set_trace_same w : set_trace (trace w) w = w.
Proof. by destruct w. Qed.

Lemma set_trace_nil w : set_trace (trace w ++ []) w = w.
Proof. rewrite app_nil_r. apply set_trace_same. Qed.

Lemma set_trace_app t1 t2 w :
  set_trace (trace (set_trace (trace w ++ t1) w) ++ t2) (set_trace (trace w ++ t1) w)
  = set_trace (trace w ++ t1 ++ t2) w.
Proof. unfold set_trace. cbn. by rewrite app_assoc. Qed.

Lemma with_tap_event_same s : with_tap_event (tap_event s) s = s.
Proof. by destruct s. Qed.

Lemma emit_unfold c w : emit c w = (Returns tt, set_trace (trace w ++ [c]) w).
Proof. reflexivity. Qed.

(** ** Teardown of the device set *)

(** One trip of the loop of [devices_cleanup]. *)
Lemma devices_cleanup_trip a i w :
  0 ≤ i →
  (device ← CFArrayGetValueAtIndex a i;
   if bool_decide (device ≠ NULL) then
     MTUnregisterContactFrameCallback device Backend.touch_callback ;;
     MTDeviceStop device ;;
     MTDeviceRelease device
   else mret tt) w =
  match cf_arrays w !! a ≫= (.!! Z.to_nat i) with
  | Some d => (Returns tt, set_trace (trace w ++ teardown_calls [d]) w)
  | None => (Undefined, w)
  end.
Proof.
  intros Hi. rewrite bind_unfold. unfold CFArrayGetValueAtIndex.
  rewrite bind_unfold. cbn [gets].
  destruct (cf_arrays w !! a) as [l|]; cbn [mbind option_bind]; [|done].
  rewrite bool_decide_eq_true_2 by done.
  destruct (l !! Z.to_nat i) as [d|]; [|done].
  cbn [mret M_ret]. unfold teardown_calls. cbn [mbind list_bind].
  rewrite app_nil_r.
  case_bool_decide; [|by rewrite set_trace_nil].
  unfold mbind, M_bind, MTUnregisterContactFrameCallback, MTDeviceStop,
    MTDeviceRelease, emit, modify, set_trace.
  cbn. by rewrite <- !app_assoc.
Qed.

Lemma teardown_calls_cons d hs :
  teardown_calls (d :: hs) = teardown_calls [d] ++ teardown_calls hs.
Proof. unfold teardown_calls. cbn. by rewrite app_nil_r. Qed.

(** The loop over any list of indices that are not negative. *)
Lemma devices_cleanup_walk a (indices : list Z) w :
  Forall (λ i, 0 ≤ i) indices →
  ∃ t, for_each indices (λ i,
         device ← CFArrayGetValueAtIndex a i;
         if bool_decide (device ≠ NULL) then
           MTUnregisterContactFrameCallback device Backend.touch_callback ;;
           MTDeviceStop device ;;
           MTDeviceRelease device
         else mret tt) w
       = (match mapM (λ i, cf_arrays w !! a ≫= (.!! Z.to_nat i)) indices with
          | Some _ => Returns tt
          | None => Undefined
          end, set_trace (trace w ++ t) w) ∧
       ∀ hs, mapM (λ i, cf_arrays w !! a ≫= (.!! Z.to_nat i)) indices = Some hs →
             t = teardown_calls hs.
Proof.
  intros Hpos. revert w. induction Hpos as [|i indices Hi _ IH]; intros w.
  { exists []. rewrite set_trace_nil. split; [done|]. by intros hs [= <-]. }
  cbn [for_each]. rewrite bind_unfold, devices_cleanup_trip by done.
  cbn [mapM]. destruct (cf_arrays w !! a ≫= (.!! Z.to_nat i)) as [d|] eqn:Hd;
    cbn [mbind option_bind]; [|by exists []; rewrite set_trace_nil].
  destruct (IH (set_trace (trace w ++ teardown_calls [d]) w)) as (t & Hrun & Ht).
  change (cf_arrays (set_trace (trace w ++ teardown_calls [d]) w)) with (cf_arrays w) in *.
  exists (teardown_calls [d] ++ t). rewrite Hrun, set_trace_app. split.
  - by destruct (mapM _ indices).
  - intros hs Hhs. destruct (mapM _ indices) as [hs'|]; [|done].
    cbn in Hhs. injection Hhs as <-.
    rewrite (teardown_calls_cons d hs'). f_equal. by apply Ht.
Qed.

Lemma seqZ_nonneg n : Forall (λ i, 0 ≤ i) (seqZ 0 n).
Proof. apply Forall_forall. intros i Hi%elem_of_seqZ. lia. Qed.

(** [devices_cleanup] only extends the trace: the program state, the set it
    was given and the arrays are as before. *)
Lemma devices_cleanup_frame devs w :
  ∃ t, (Backend.devices_cleanup devs w).2 = set_trace (trace w ++ t) w.
Proof.
  destruct (devices_cleanup_walk (array devs) (seqZ 0 (len devs)) w (seqZ_nonneg _))
    as (t & Hrun & _).
  exists t. unfold Backend.devices_cleanup. by rewrite Hrun.
Qed.

Lemma devices_cleanup_members devs w hs :
  members (cf_arrays w) devs = Some hs →
  Backend.devices_cleanup devs w =
    (Returns tt, set_trace (trace w ++ teardown_calls hs) w).
Proof.
  intros Hm.
  destruct (devices_cleanup_walk (array devs) (seqZ 0 (len devs)) w (seqZ_nonneg _))
    as (t & Hrun & Ht).
  unfold Backend.devices_cleanup. rewrite Hrun.
  unfold members in Hm. rewrite Hm. by rewrite (Ht hs Hm).
Qed.

Lemma devices_cleanup_returns devs w w' :
  Backend.devices_cleanup devs w = (Returns tt, w') →
  ∃ hs, members (cf_arrays w) devs = Some hs ∧
        w' = set_trace (trace w ++ teardown_calls hs) w.
Proof.
  intros Hrun'.
  destruct (devices_cleanup_walk (array devs) (seqZ 0 (len devs)) w (seqZ_nonneg _))
    as (t & Hrun & Ht).
  unfold Backend.devices_cleanup in Hrun'. rewrite Hrun in Hrun'.
  unfold members. destruct (mapM _ _) as [hs|]; [|done].
  exists hs. split; [done|]. injection Hrun' as <-. by rewrite (Ht hs eq_refl).
Qed.

(** C7 fails on the code: a second [devices_cleanup] of the same set, right
    after the first, finds the array and the length as they were and
    unregisters, stops and releases every handle once more. *)
Theorem devices_cleanup_twice_releases_twice :
  let r := (Backend.devices_cleanup two_devices ;;
            Backend.devices_cleanup two_devices) two_devices_world in
  r = (Returns tt,
       set_trace (teardown_calls [100; 101] ++ teardown_calls [100; 101])
         two_devices_world) ∧
  length (filter (λ c, c = call_MTDeviceRelease 100) (trace r.2)) = 2%nat ∧
  length (filter (λ c, c = call_MTDeviceRelease 101) (trace r.2)) = 2%nat.
Proof. vm_compute. repeat split; reflexivity. Qed.

(** ** What a computation may add to the trace *)

Section EmitsOnly.
Context (P : os_call → Prop).

Lemma emits_only_ret {A} (a : A) : emits_only P (mret a).
Proof. intros w. exists []. by rewrite app_nil_r. Qed.

Lemma emits_only_bind {A B} (m : M A) (k : A → M B) :
  emits_only P m → (∀ a, emits_only P (k a)) → emits_only P (m ≫= k).
Proof.
  intros Hm Hk w. destruct (Hm w) as (t & Ht & HP).
  rewrite bind_unfold. destruct (m w) as [[a| | |] w1]; cbn in Ht; try by exists t.
  destruct (Hk a w1) as (t' & Ht' & HP').
  exists (t ++ t'). rewrite Ht', Ht, app_assoc. split; [done|].
  by apply Forall_app.
Qed.

Lemma emits_only_gets {A} (f : world → A) : emits_only P (gets f).
Proof. intros w. exists []. by rewrite app_nil_r. Qed.

Lemma emits_only_modify (f : world → world) :
  (∀ w, trace (f w) = trace w) → emits_only P (modify f).
Proof. intros Hf w. exists []. cbn. by rewrite Hf, app_nil_r. Qed.

Lemma emits_only_emit c : P c → emits_only P (emit c).
Proof. intros Hc w. exists [c]. split; [done|]. by constructor. Qed.

Lemma emits_only_exit {A} status : emits_only P (exit (A := A) status).
Proof. intros w. exists []. by rewrite app_nil_r. Qed.

Lemma emits_only_undefined {A} : emits_only P (undefined (A := A)).
Proof. intros w. exists []. by rewrite app_nil_r. Qed.

Lemma emits_only_running {A} : emits_only P (running (A := A)).
Proof. intros w. exists []. by rewrite app_nil_r. Qed.

Lemma emits_only_for_each {A} (l : list A) (body : A → M unit) :
  (∀ x, emits_only P (body x)) → emits_only P (for_each l body).
Proof.
  intros Hbody. induction l as [|x l IH]; cbn [for_each].
  - apply emits_only_ret.
  - apply emits_only_bind; [apply Hbody | intros _; apply IH].
Qed.

Lemma emits_only_for_int fuel i (cond : Z → M bool) (body : Z → M unit) :
  (∀ j, emits_only P (cond j)) → (∀ j, emits_only P (body j)) →
  emits_only P (for_int fuel i cond body).
Proof.
  intros Hcond Hbody. revert i. induction fuel as [|fuel IH]; intros i; cbn [for_int].
  - apply emits_only_running.
  - apply emits_only_bind; [apply Hcond|]. intros [|].
    + apply emits_only_bind; [apply Hbody | intros _; apply IH].
    + apply emits_only_ret.
Qed.
End EmitsOnly.

(** Breaks a computation down to its calls. *)
Ltac emits_only_step :=
  first
    [ apply emits_only_ret
    | apply emits_only_gets
    | apply emits_only_exit
    | apply emits_only_undefined
    | apply emits_only_running
    | apply emits_only_emit
    | apply emits_only_modify; intros ?; reflexivity
    | apply emits_only_bind; [|intros ?]
    | apply emits_only_for_each; intros ?
    | apply emits_only_for_int; intros ?
    | match goal with
      | |- emits_only _ (if ?b then _ else _) => destruct b
      | |- emits_only _ (match ?o with Some _ => _ | None => _ end) => destruct o
      end ].

Ltac emits_only_calls := repeat emits_only_step.

(** ** The exit path of the run controller *)

Lemma stop_io_notifications_quiet w :
  ∃ w' t, Backend.stop_io_notifications w = (Returns tt, w') ∧
          devices (state w') = devices (state w) ∧
          cf_arrays w' = cf_arrays w ∧
          trace w' = trace w ++ t ∧
          Forall (λ c, is_multitouch_call c = false) t.
Proof.
  unfold Backend.stop_io_notifications. rewrite bind_unfold. cbn [gets].
  case_bool_decide.
  - eexists _, [_]. split; [reflexivity|]. repeat split. by constructor.
  - exists w, []. by rewrite app_nil_r.
Qed.

Lemma stop_click_loop_quiet w :
  ∃ w' t, Backend.stop_click_loop w = (Returns tt, w') ∧
          devices (state w') = devices (state w) ∧
          cf_arrays w' = cf_arrays w ∧
          trace w' = trace w ++ t ∧
          Forall (λ c, is_multitouch_call c = false) t.
Proof.
  unfold Backend.stop_click_loop, mbind, M_bind, gets, CGEventTapEnable,
    CFRelease, CFRunLoopRemoveSource, emit, modify.
  destruct (bool_decide (tap_event (state w) ≠ NULL)); cbn;
    destruct (bool_decide (run_loop_src (state w) ≠ NULL)).
  - eexists _, [_; _; _; _]. split; [reflexivity|]. cbn.
    rewrite <- !app_assoc. repeat split. by repeat constructor.
  - eexists _, [_; _]. split; [reflexivity|]. cbn.
    rewrite <- !app_assoc. repeat split. by repeat constructor.
  - eexists _, [_; _]. split; [reflexivity|]. cbn.
    rewrite <- !app_assoc. repeat split. by repeat constructor.
  - exists w, []. by rewrite app_nil_r.
Qed.

(** However the cycles went, a [for (;;)] that is left has just torn the
    set down. *)
Lemma click_loop_returns os fuel w w1 :
  Backend.click_loop os fuel w = (Returns tt, w1) →
  ∃ hs before after,
    members (cf_arrays w1) (devices (state w1)) = Some hs ∧
    trace w1 = before ++ teardown_calls hs ++ after ∧
    Forall (λ c, is_multitouch_call c = false) after.
Proof.
  revert w. induction fuel as [|fuel IH]; intros w; cbn [Backend.click_loop]; [done|].
  intros (r & w2 & _ & Hrest)%bind_returns.
  case_bool_decide; [|by eapply IH].
  apply bind_returns in Hrest as (st & ? & [= <- <-] & Hrest).
  apply bind_returns in Hrest as ([] & w3 & Hclean & Hstop).
  apply devices_cleanup_returns in Hclean as (hs & Hhs & ->).
  destruct (stop_io_notifications_quiet (set_trace (trace w2 ++ teardown_calls hs) w2))
    as (w4 & t & Hstop' & Hdevs & Harrays & Htrace & Ht).
  rewrite Hstop' in Hstop. injection Hstop as <-.
  exists hs, (trace w2), t. rewrite Hdevs, Harrays, Htrace. cbn.
  by rewrite <- app_assoc.
Qed.

Lemma run_click_loop_returns os fuel w w1 :
  Backend.run_click_loop os fuel w = (Returns tt, w1) →
  ∃ hs before after,
    members (cf_arrays w1) (devices (state w1)) = Some hs ∧
    trace w1 = before ++ teardown_calls hs ++ after ∧
    Forall (λ c, is_multitouch_call c = false) after.
Proof.
  unfold Backend.run_click_loop.
  intros (st & ? & [= <- <-] & Hrest)%bind_returns.
  apply bind_returns in Hrest as ([] & w2 & _ & Hrest).
  apply bind_returns in Hrest as (kres & w3 & _ & Hrest).
  case_bool_decide; [|by eapply click_loop_returns].
  apply bind_returns in Hrest as ([] & w4 & _ & Hrest).
  apply bind_returns in Hrest as ([] & w5 & _ & Hrest).
  apply bind_returns in Hrest as (st & ? & [= <- <-] & Hclean).
  apply devices_cleanup_returns in Hclean as (hs & Hhs & ->).
  exists hs, (trace w5), []. cbn. by rewrite app_nil_r.
Qed.

(** C9: [devices_cleanup] leaves the program state, the set it was given and
    the arrays as they were, so the set lists the same handles after the
    teardown as before.  Hence, whenever [run_click_loop] returns and
    [state_cleanup] follows, the trace holds the teardown calls of the
    handles of the set twice, with no call to the multitouch framework in
    between: every handle is unregistered, stopped and released twice. *)
Theorem teardown_runs_twice_on_exit os fuel w w' :
  (Backend.run_click_loop os fuel ;; Backend.state_cleanup) w = (Returns tt, w') →
  (∀ devs w0,
     let w1 := (Backend.devices_cleanup devs w0).2 in
     state w1 = state w0 ∧ cf_arrays w1 = cf_arrays w0 ∧
     members (cf_arrays w1) devs = members (cf_arrays w0) devs) ∧
  ∃ handles before between,
    members (cf_arrays w') (devices (state w')) = Some handles ∧
    trace w' = before ++ teardown_calls handles ++ between ++ teardown_calls handles ∧
    Forall (λ c, is_multitouch_call c = false) between.
Proof.
  intros ([] & w1 & Hrun & Hcleanup)%bind_returns. split.
  { intros devs w0. cbv zeta.
    destruct (devices_cleanup_frame devs w0) as (t & ->). by cbn. }
  apply run_click_loop_returns in Hrun as (hs & before & after & Hhs & Htrace & Hafter).
  unfold Backend.state_cleanup in Hcleanup.
  destruct (stop_io_notifications_quiet w1) as (w2 & t2 & Hio & Hdevs2 & Harr2 & Htr2 & Ht2).
  rewrite (bind_step _ _ _ _ _ Hio) in Hcleanup.
  destruct (stop_click_loop_quiet w2) as (w3 & t3 & Hclick & Hdevs3 & Harr3 & Htr3 & Ht3).
  rewrite (bind_step _ _ _ _ _ Hclick) in Hcleanup.
  apply bind_returns in Hcleanup as (st & ? & [= <- <-] & Hclean).
  apply devices_cleanup_returns in Hclean as (hs' & Hhs' & ->).
  rewrite Hdevs3, Harr3, Hdevs2, Harr2, Hhs in Hhs'. injection Hhs' as <-.
  exists hs, before, (after ++ t2 ++ t3). cbn.
  rewrite Hdevs3, Harr3, Hdevs2, Harr2, Htr3, Htr2, Htrace. split; [done|].
  split; [by rewrite <- !app_assoc|].
  by repeat apply Forall_app_2.
Qed.

Lemma teardown_runs_twice_on_exit_witness :
  let w' := ((Backend.run_click_loop denying_os 1 ;; Backend.state_cleanup)
               two_devices_world).2 in
  (∀ devs w0,
     let w1 := (Backend.devices_cleanup devs w0).2 in
     state w1 = state w0 ∧ cf_arrays w1 = cf_arrays w0 ∧
     members (cf_arrays w1) devs = members (cf_arrays w0) devs) ∧
  ∃ handles before between,
    members (cf_arrays w') (devices (state w')) = Some handles ∧
    trace w' = before ++ teardown_calls handles ++ between ++ teardown_calls handles ∧
    Forall (λ c, is_multitouch_call c = false) between.
Proof.
  cbv zeta.
  apply (teardown_runs_twice_on_exit denying_os 1 two_devices_world).
  vm_compute. reflexivity.
Defined.

(** ** Acquiring the event tap *)

(** One evaluation of the test of the loop and, if it holds, one trip. *)
Lemma tap_loop_unfold os fuel i w :
  Backend.tap_loop os (S fuel) i w =
  if bool_decide (tap_event (state w) = NULL) && bool_decide (i < 300) then
    let tap := event_tap os (n_taps (asked w)) in
    let w1 := set_state (with_tap_event tap (state w))
                (set_trace (trace w ++ [tap_request])
                   (set_asked (bump_taps (asked w)) w)) in
    Backend.tap_loop os fuel (i + 1)
      (if bool_decide (tap = NULL) then set_trace (trace w1 ++ [call_sleep 1]) w1 else w1)
  else (Returns tt, w).
Proof.
  unfold Backend.tap_loop. cbn [for_int].
  rewrite (bind_step _ _ w
             (bool_decide (tap_event (state w) = NULL) && bool_decide (i < 300)) w)
    by reflexivity.
  destruct (bool_decide (tap_event (state w) = NULL) && bool_decide (i < 300)); [|done].
  set (tap := event_tap os (n_taps (asked w))).
  set (w1 := set_state _ _). cbv zeta.
  rewrite (bind_step _ _ w tt
             (if bool_decide (tap = NULL)
              then set_trace (trace w1 ++ [call_sleep 1]) w1 else w1)); [done|].
  subst tap w1.
  unfold CGEventTapCreate, sleep, emit, modify, gets, mbind, M_bind, mret, M_ret.
  cbn. by destruct (bool_decide (event_tap os (n_taps (asked w)) = NULL)).
Qed.

Lemma after_failed_attempts_0 w : after_failed_attempts 0 w = w.
Proof.
  destruct w as [? ? ? ? ? ? []].
  unfold after_failed_attempts, set_trace, set_asked, add_taps. cbn.
  by rewrite app_nil_r, Nat.add_0_r.
Qed.

Lemma after_failed_attempts_S n w :
  tap_event (state w) = NULL →
  after_failed_attempts n
    (set_trace
       (trace w ++ [tap_request] ++ [call_sleep 1])
       (set_state (with_tap_event NULL (state w))
          (set_asked (bump_taps (asked w)) w)))
  = after_failed_attempts (S n) w.
Proof.
  intros Htap. rewrite <- Htap, with_tap_event_same.
  destruct w as [? ? ? ? ? ? []].
  unfold after_failed_attempts, set_trace, set_state, set_asked, add_taps, bump_taps.
  cbn. rewrite <- !app_assoc. do 2 f_equal. lia.
Qed.

(** [n] refusals in a row take the loop from [i] to [i + n]. *)
Lemma tap_loop_refused os n fuel i w :
  tap_event (state w) = NULL →
  i + Z.of_nat n ≤ 300 →
  (∀ j, (j < n)%nat → event_tap os (n_taps (asked w) + j)%nat = NULL) →
  Backend.tap_loop os (n + fuel) i w =
  Backend.tap_loop os fuel (i + Z.of_nat n) (after_failed_attempts n w).
Proof.
  revert i w. induction n as [|n IH]; intros i w Htap Hi Hrefused.
  { by rewrite after_failed_attempts_0, Z.add_0_r. }
  change (S n + fuel)%nat with (S (n + fuel)). rewrite tap_loop_unfold.
  rewrite !bool_decide_eq_true_2 by (done || lia). cbv zeta.
  assert (Hfirst : event_tap os (n_taps (asked w)) = NULL).
  { rewrite <- (Nat.add_0_r (n_taps (asked w))). apply Hrefused. lia. }
  rewrite Hfirst, bool_decide_eq_true_2 by done. cbn [andb].
  rewrite IH.
  - replace (i + 1 + Z.of_nat n) with (i + Z.of_nat (S n)) by lia.
    f_equal. rewrite <- (after_failed_attempts_S n w Htap).
    f_equal. unfold set_trace, set_state. cbn. by rewrite <- app_assoc.
  - done.
  - lia.
  - intros j Hj. cbn. rewrite <- Nat.add_succ_r. apply Hrefused. lia.
Qed.

Lemma tap_loop_gives_up os w :
  tap_event (state w) = NULL →
  (∀ j, (j < 300)%nat → event_tap os (n_taps (asked w) + j)%nat = NULL) →
  Backend.tap_loop os 301 0 w = (Returns tt, after_failed_attempts 300 w).
Proof.
  intros Htap Hrefused.
  change 301%nat with (300 + 1)%nat. rewrite tap_loop_refused by (done || lia).
  rewrite tap_loop_unfold.
  rewrite (bool_decide_eq_false_2 (0 + Z.of_nat 300 < 300)) by lia.
  by rewrite andb_false_r.
Qed.

Lemma tap_loop_granted os k w :
  tap_event (state w) = NULL →
  (k < 300)%nat →
  (∀ j, (j < k)%nat → event_tap os (n_taps (asked w) + j)%nat = NULL) →
  event_tap os (n_taps (asked w) + k)%nat ≠ NULL →
  Backend.tap_loop os 301 0 w = (Returns tt, after_granted_attempt os k w).
Proof.
  intros Htap Hk Hrefused Hgranted.
  replace 301%nat with (k + S (S (299 - k)))%nat by lia.
  rewrite tap_loop_refused by (done || lia).
  rewrite tap_loop_unfold.
  rewrite (bool_decide_eq_true_2 (tap_event _ = NULL)) by done.
  rewrite (bool_decide_eq_true_2 (0 + Z.of_nat k < 300)) by lia.
  cbn [andb]. cbv zeta.
  change (n_taps (asked (after_failed_attempts k w))) with (n_taps (asked w) + k)%nat.
  rewrite (bool_decide_eq_false_2 (event_tap _ _ = NULL)) by done.
  rewrite tap_loop_unfold.
  rewrite (bool_decide_eq_false_2 (tap_event _ = NULL)) by done.
  cbn [andb]. f_equal.
  destruct w as [? ? ? ? ? ? []].
  unfold after_granted_attempt, after_failed_attempts, set_trace, set_state,
    set_asked, add_taps, bump_taps.
  cbn. rewrite <- !app_assoc. do 2 f_equal. lia.
Qed.






Lemma CFMachPortCreateRunLoopSource_unfold os tap w :
  CFMachPortCreateRunLoopSource os tap w =
  (Returns (run_loop_source os (n_sources (asked w))),
   set_trace (trace w ++ [call_CFMachPortCreateRunLoopSource tap])
     (set_asked (bump_sources (asked w)) w)).
Proof. reflexivity. Qed.





(** ** The scenarios of the specification, run on the model *)

(** A click with three fingers that are lifted before the button is
    released: both halves are converted, and the flag ends false. *)
Example three_finger_click :
  let w := set_state (with_devices two_devices fresh_state)
             (set_cf_arrays {[ 50 := [100; 101] ]}
                (click_world 0 false kCGEventLeftMouseDown)) in
  let r := Backend.listen_click_loop (granting_os 0) w in
  r.1 = Returns 0 ∧
  is_middle_click r.2 = false ∧
  current_fingers r.2 = 0 ∧
  ev_type <$> cg_events r.2 !! 7 = Some kCGEventOtherMouseUp ∧
  filter (λ c, c = event_dispatched 7) (trace r.2)
    = [event_dispatched 7; event_dispatched 7].
Proof. vm_compute. repeat split; reflexivity. Qed.

(** The driver of backend.c under an OS that never grants the tap: every
    handle is released twice before the process ends. *)
Example main_without_permission :
  let r := Backend.main denying_os 1 (click_world 0 false kCGEventLeftMouseDown) in
  r.1 = Returns tt ∧
  filter (λ c, bool_decide (c = call_MTDeviceRelease 100) || bool_decide (c = call_MTDeviceRelease 101))
    (trace r.2)
    = [call_MTDeviceRelease 100; call_MTDeviceRelease 101;
       call_MTDeviceRelease 100; call_MTDeviceRelease 101].
Proof. vm_compute. repeat split; reflexivity. Qed.

(** ** The entry condition of the acquisition

    [new_state] leaves [tap_event] at [NULL], and a cycle that ends well
    puts it back to [NULL]: [run_click_loop] enters [listen_click_loop]
    without a tap each time. *)

Lemma stop_click_loop_clears_tap w :
  ∃ w', Backend.stop_click_loop w = (Returns tt, w') ∧ tap_event (state w') = NULL.
Proof.
  unfold Backend.stop_click_loop, mbind, M_bind, gets, CGEventTapEnable,
    CFRelease, CFRunLoopRemoveSource, emit, modify.
  case_bool_decide as Htap; cbn;
    destruct (bool_decide (run_loop_src (state w) ≠ NULL));
    eexists; (split; [reflexivity|]); cbn; try done.
Qed.

Lemma new_state_without_tap os w s w' :
  Backend.new_state os w = (Returns s, w') → tap_event s = NULL.
Proof.
  unfold Backend.new_state.
  intros (d & w1 & _ & [= <- _])%bind_returns. reflexivity.
Qed.

Lemma listen_click_loop_reentry os w w' :
  Backend.listen_click_loop os w = (Returns 0, w') → tap_event (state w') = NULL.
Proof.
  unfold Backend.listen_click_loop.
  intros ([] & w1 & _ & Hrest)%bind_returns.
  apply bind_returns in Hrest as (st & ? & [= <- <-] & Hrest).
  case_bool_decide.
  { apply bind_returns in Hrest as ([] & w2 & _ & [= ]). }
  apply bind_returns in Hrest as (src & w2 & _ & Hrest).
  apply bind_returns in Hrest as ([] & w3 & _ & Hrest).
  apply bind_returns in Hrest as (st & ? & [= <- <-] & Hrest).
  case_bool_decide.
  { apply bind_returns in Hrest as ([] & w4 & _ & [= ]). }
  apply bind_returns in Hrest as ([] & w4 & _ & Hrest).
  apply bind_returns in Hrest as ([] & w5 & _ & Hrest).
  apply bind_returns in Hrest as ([] & w6 & _ & Hrest).
  apply bind_returns in Hrest as ([] & w7 & Hstop & [= <-]).
  destruct (stop_click_loop_clears_tap w6) as (w8 & Hstop' & Htap).
  rewrite Hstop' in Hstop. by injection Hstop as <-.
Qed.

(** * Further properties of the code *)

(** ** The event transformer on ordinary input *)

(** X1: with the flag false and a contact count other than 3, whatever the
    category of the event is, [mouse_callback] returns the event it was given
    and leaves the world as it was: an ordinary click is never touched. *)
Theorem ordinary_event_untouched proxy type event refcon w :
  current_fingers w ≠ 3 →
  is_middle_click w = false →
  Backend.mouse_callback proxy type event refcon w = (Returns event, w).
Proof.
  intros Hfingers Hflag. rewrite mouse_callback_unfold, Hflag.
  by rewrite bool_decide_eq_true_2.
Qed.

Lemma ordinary_event_untouched_witness :
  Backend.mouse_callback NULL kCGEventLeftMouseDown 7 NULL
    (click_world 2 false kCGEventLeftMouseDown)
  = (Returns 7, click_world 2 false kCGEventLeftMouseDown).
Proof. apply ordinary_event_untouched; [by vm_compute | reflexivity]. Defined.

(** X2: an event that is neither a left button press nor a left button
    release falls through the [switch]: it is returned as it came and the
    flag is not touched, even with three contacts or in the middle of a
    converted click. *)
Theorem other_categories_untouched proxy type event refcon w :
  type ≠ kCGEventLeftMouseDown →
  type ≠ kCGEventLeftMouseUp →
  Backend.mouse_callback proxy type event refcon w = (Returns event, w).
Proof.
  intros Hdown Hup. rewrite mouse_callback_unfold.
  rewrite (bool_decide_eq_false_2 (type = kCGEventLeftMouseDown)) by done.
  rewrite (bool_decide_eq_false_2 (type = kCGEventLeftMouseUp)) by done.
  by destruct (_ && _).
Qed.

Lemma other_categories_untouched_witness :
  Backend.mouse_callback NULL 5 7 NULL (click_world 3 true 5)
  = (Returns 7, click_world 3 true 5).
Proof. apply other_categories_untouched; by vm_compute. Defined.

Lemma mouse_down_three_fingers_or_flag proxy event refcon w :
  current_fingers w = 3 ∨ is_middle_click w = true →
  Backend.mouse_callback proxy kCGEventLeftMouseDown event refcon w =
    (Returns event,
     set_is_middle_click true (converted kCGEventOtherMouseDown event w)).
Proof.
  intros Hopen. rewrite mouse_callback_unfold.
  destruct Hopen as [-> | ->]; [done|]. by rewrite andb_false_r.
Qed.

(** X3: a frame with three contacts, a left button press, any frames at all,
    and then a left button release: the press is converted whatever the flag
    was before, the release is converted whatever the contact count has
    become, and the flag ends false. *)
Theorem three_finger_click_completes device fingers timestamp frame
    proxy1 down refcon1 frames proxy2 up refcon2 w :
  (Backend.touch_callback device fingers 3 timestamp frame ;;
   Backend.mouse_callback proxy1 kCGEventLeftMouseDown down refcon1 ;;
   report_frames Backend.touch_callback frames ;;
   Backend.mouse_callback proxy2 kCGEventLeftMouseUp up refcon2) w
  = (Returns up,
     set_is_middle_click false
       (converted kCGEventOtherMouseUp up
          (set_current_fingers
             (match last frames with Some f => fr_nFingers f | None => 3 end)
             (converted kCGEventOtherMouseDown down w)))).
Proof.
  rewrite (bind_step _ _ w 0 (set_current_fingers 3 w)) by reflexivity.
  erewrite bind_step
    by (apply mouse_down_three_fingers_or_flag; by left).
  erewrite bind_step by apply report_frames_overwrites.
  rewrite mouse_callback_unfold.
  destruct (last frames) as [f|]; cbn; by rewrite andb_false_r.
Qed.

(** ** Whole sessions of the run loop *)

Lemma mouse_callback_keeps proxy type event refcon w :
  ∃ w', Backend.mouse_callback proxy type event refcon w = (Returns event, w') ∧
        trace w' = trace w ∧ state w' = state w ∧ cf_arrays w' = cf_arrays w ∧
        asked w' = asked w ∧ dom (cg_events w') = dom (cg_events w).
Proof.
  rewrite mouse_callback_unfold. eexists; split; [reflexivity|].
  destruct (_ && _); [done|].
  destruct (bool_decide (type = kCGEventLeftMouseDown)).
  { repeat split. cbn. apply dom_alter_L. }
  destruct (bool_decide (type = kCGEventLeftMouseUp)); [|done].
  repeat split. cbn. apply dom_alter_L.
Qed.

Lemma dispatched_cons d script :
  dispatched (d :: script) = dispatched [d] ++ dispatched script.
Proof. unfold dispatched. cbn. by rewrite app_nil_r. Qed.

(** X4: while the run loop hands over frames and pointer events only, the
    handlers always return, and every pointer event is dispatched exactly
    once, under the reference it came with and in the order of arrival: none
    is dropped, none is added, none overtakes another.  No event object
    appears or disappears, and the program state and the device arrays are
    left alone. *)
Theorem pointer_events_dispatched_in_order os script w :
  Forall (λ d, is_device_matched d = false) script →
  ∃ w', for_each script (deliver (Backend.handlers os)) w = (Returns tt, w') ∧
        trace w' = trace w ++ dispatched script ∧
        dom (cg_events w') = dom (cg_events w) ∧
        state w' = state w ∧ cf_arrays w' = cf_arrays w.
Proof.
  intros Hscript. revert w.
  induction Hscript as [|d script Hd _ IH]; intros w.
  { exists w. by rewrite app_nil_r. }
  cbn [for_each]. destruct d as [device fingers n timestamp frame|proxy type event|];
    [| |done].
  - destruct (IH (set_current_fingers n w)) as (w' & Hrun & Htrace & Hdom & Hstate & Harr).
    exists w'. rewrite (bind_step _ _ w tt (set_current_fingers n w)) by reflexivity.
    by rewrite dispatched_cons.
  - destruct (mouse_callback_keeps proxy type event NULL w)
      as (w1 & Hcall & Htr1 & Hst1 & Harr1 & _ & Hdom1).
    destruct (IH (set_trace (trace w1 ++ [event_dispatched event]) w1))
      as (w' & Hrun & Htrace & Hdom & Hstate & Harr).
    exists w'.
    rewrite (bind_step _ _ w tt (set_trace (trace w1 ++ [event_dispatched event]) w1)).
    + rewrite Hrun, Htrace, Hdom, Hstate, Harr, dispatched_cons. cbn.
      rewrite Htr1, <- app_assoc. done.
    + cbn [deliver Backend.handlers on_pointer].
      by rewrite (bind_step _ _ _ _ _ Hcall).
Qed.

Lemma pointer_events_dispatched_in_order_witness :
  let script := [TouchFrame 1 NULL 3 0 1; PointerEvent NULL kCGEventLeftMouseDown 7;
                 PointerEvent NULL kCGEventLeftMouseUp 7] in
  let w := click_world 0 false kCGEventLeftMouseDown in
  ∃ w', for_each script (deliver (Backend.handlers denying_os)) w = (Returns tt, w') ∧
        trace w' = trace w ++ dispatched script ∧
        dom (cg_events w') = dom (cg_events w) ∧
        state w' = state w ∧ cf_arrays w' = cf_arrays w.
Proof.
  apply pointer_events_dispatched_in_order. by repeat constructor.
Defined.

Lemma ordinary_event_untouched_helper proxy type event refcon w :
  current_fingers w ≠ 3 →
  is_middle_click w = false →
  Backend.mouse_callback proxy type event refcon w = (Returns event, w).
Proof.
  intros Hfingers Hflag. rewrite mouse_callback_unfold, Hflag.
  by rewrite bool_decide_eq_true_2.
Qed.

(** X5: as long as no frame reports exactly three contacts (and none was
    reported before, and no conversion is under way), a session of frames
    and pointer events of any length leaves every event as it arrived and
    the flag false. *)
Theorem session_without_gesture_untouched os script w :
  current_fingers w ≠ 3 →
  is_middle_click w = false →
  Forall (λ d, is_device_matched d = false ∧ is_three_finger_frame d = false) script →
  ∃ w', for_each script (deliver (Backend.handlers os)) w = (Returns tt, w') ∧
        cg_events w' = cg_events w ∧
        is_middle_click w' = false ∧
        current_fingers w' ≠ 3 ∧
        trace w' = trace w ++ dispatched script.
Proof.
  intros Hfingers Hflag Hscript. revert w Hfingers Hflag.
  induction Hscript as [|d script [Hd Hthree] _ IH]; intros w Hfingers Hflag.
  { exists w. by rewrite app_nil_r. }
  cbn [for_each]. destruct d as [device fingers n timestamp frame|proxy type event|];
    [| |done].
  - cbn in Hthree. apply bool_decide_eq_false in Hthree.
    destruct (IH (set_current_fingers n w)) as (w' & Hrun & ?); [done..|].
    exists w'. rewrite (bind_step _ _ w tt (set_current_fingers n w)) by reflexivity.
    by rewrite dispatched_cons.
  - destruct (IH (set_trace (trace w ++ [event_dispatched event]) w))
      as (w' & Hrun & Hev & Hfl & Hfi & Htrace); [done..|].
    exists w'.
    rewrite (bind_step _ _ w tt (set_trace (trace w ++ [event_dispatched event]) w)).
    + rewrite Hrun, Htrace, dispatched_cons. cbn. by rewrite <- app_assoc.
    + cbn [deliver Backend.handlers on_pointer].
      by rewrite (bind_step _ _ _ _ _
                    (ordinary_event_untouched_helper proxy type event NULL w Hfingers Hflag)).
Qed.

Lemma session_without_gesture_untouched_witness :
  let script := [TouchFrame 1 NULL 2 0 1; PointerEvent NULL kCGEventLeftMouseDown 7;
                 TouchFrame 1 NULL 4 0 2; PointerEvent NULL kCGEventLeftMouseUp 7] in
  let w := click_world 1 false kCGEventLeftMouseDown in
  ∃ w', for_each script (deliver (Backend.handlers denying_os)) w = (Returns tt, w') ∧
        cg_events w' = cg_events w ∧
        is_middle_click w' = false ∧
        current_fingers w' ≠ 3 ∧
        trace w' = trace w ++ dispatched script.
Proof.
  apply session_without_gesture_untouched;
    [by vm_compute | reflexivity | by repeat constructor].
Defined.

(** ** The device set *)

(** A walk over the entries of a live array that acts on each handle. *)
Lemma array_walk a (act : ptr → M unit) (calls : ptr → list os_call) indices w hs :
  (∀ d w0, act d w0 = (Returns tt, set_trace (trace w0 ++ calls d) w0)) →
  Forall (λ i, 0 ≤ i) indices →
  mapM (λ i, cf_arrays w !! a ≫= (.!! Z.to_nat i)) indices = Some hs →
  for_each indices (λ i, device ← CFArrayGetValueAtIndex a i; act device) w
  = (Returns tt, set_trace (trace w ++ (hs ≫= calls)) w).
Proof.
  intros Hact Hpos. revert w hs.
  induction Hpos as [|i indices Hi _ IH]; intros w hs Hhs.
  { injection Hhs as <-. cbn. by rewrite set_trace_nil. }
  cbn [mapM] in Hhs.
  destruct (cf_arrays w !! a ≫= (.!! Z.to_nat i)) as [d|] eqn:Hd; [|done].
  cbn [mbind option_bind] in Hhs.
  destruct (mapM _ indices) as [hs'|] eqn:Hrest; [|done].
  injection Hhs as <-.
  cbn [for_each]. rewrite (bind_step _ _ w tt (set_trace (trace w ++ calls d) w)).
  - rewrite (IH _ hs') by done. f_equal. by rewrite set_trace_app.
  - rewrite (bind_step _ _ w d w); [apply Hact|].
    unfold CFArrayGetValueAtIndex. rewrite bind_unfold. cbn [gets].
    destruct (cf_arrays w !! a) as [l|]; [|done]. cbn in Hd.
    by rewrite bool_decide_eq_true_2, Hd.
Qed.

Lemma register_act d w :
  (if bool_decide (d ≠ NULL) then
     MTRegisterContactFrameCallback d Backend.touch_callback ;;
     MTDeviceStart d 0
   else mret tt) w
  = (Returns tt,
     set_trace (trace w ++
                (if bool_decide (d ≠ NULL)
                 then [call_MTRegisterContactFrameCallback d; call_MTDeviceStart d 0]
                 else [])) w).
Proof.
  case_bool_decide; [|by rewrite set_trace_nil].
  unfold mbind, M_bind, MTRegisterContactFrameCallback, MTDeviceStart, emit,
    modify, set_trace.
  cbn. by rewrite <- !app_assoc.
Qed.

Lemma devices_register_members devs callback w hs :
  members (cf_arrays w) devs = Some hs →
  Backend.devices_register devs callback w =
    (Returns tt, set_trace (trace w ++ register_calls hs) w).
Proof.
  intros Hm. unfold Backend.devices_register.
  apply (array_walk (array devs)
           (λ d, if bool_decide (d ≠ NULL) then
                   MTRegisterContactFrameCallback d Backend.touch_callback ;;
                   MTDeviceStart d 0
                 else mret tt)
           (λ d, if bool_decide (d ≠ NULL)
                 then [call_MTRegisterContactFrameCallback d; call_MTDeviceStart d 0]
                 else [])); [apply register_act | apply seqZ_nonneg | done].
Qed.

(** The set [{a, length l}] over a live array [l] lists all of [l]. *)
Lemma members_whole arrays a l :
  arrays !! a = Some l →
  members arrays {| array := a; len := Z.of_nat (length l) |} = Some l.
Proof.
  intros Ha. unfold members. cbn [array len]. rewrite Ha. cbn [mbind option_bind].
  apply mapM_Some_2, Forall2_same_length_lookup_2.
  { by rewrite length_seqZ, Nat2Z.id. }
  intros i x y Hx Hy. apply lookup_seqZ in Hx as [-> _].
  by rewrite Z.add_0_l, Nat2Z.id.
Qed.

(** X6: on a set whose entries can all be read, [devices_register] returns
    after registering the frame callback on, and starting, every handle that
    is not [NULL], in the order of the array, and [devices_cleanup] after it
    unregisters, stops and releases exactly the same handles in the same
    order; [NULL] entries are skipped by both, and nothing but the trace of
    calls changes. *)
Theorem register_then_cleanup_balanced devs callback w hs :
  members (cf_arrays w) devs = Some hs →
  (Backend.devices_register devs callback ;; Backend.devices_cleanup devs) w
  = (Returns tt,
     set_trace (trace w ++ register_calls hs ++ teardown_calls hs) w).
Proof.
  intros Hm.
  rewrite (bind_step _ _ _ _ _ (devices_register_members devs callback w hs Hm)).
  rewrite (devices_cleanup_members devs _ hs) by done.
  by rewrite set_trace_app.
Qed.

Lemma register_then_cleanup_balanced_witness :
  (Backend.devices_register two_devices Backend.touch_callback ;;
   Backend.devices_cleanup two_devices) two_devices_world
  = (Returns tt,
     set_trace (trace two_devices_world ++
                register_calls [100; 101] ++ teardown_calls [100; 101])
       two_devices_world).
Proof. apply register_then_cleanup_balanced. reflexivity. Defined.

Lemma CFArrayGetCount_live a l w :
  cf_arrays w !! a = Some l →
  CFArrayGetCount a w = (Returns (Z.of_nat (length l)), w).
Proof.
  intros Ha. unfold CFArrayGetCount. rewrite bind_unfold. cbn [gets]. by rewrite Ha.
Qed.

(** [multitouch_devices] in closed form. *)
Lemma multitouch_devices_unfold os w :
  Backend.multitouch_devices os w =
  let a := (device_list os (n_lists (asked w))).1 in
  let l := (device_list os (n_lists (asked w))).2 in
  let w1 := set_trace (trace w ++ [call_MTDeviceCreateList])
              (set_asked (bump_lists (asked w)) w) in
  if bool_decide (a = NULL) then
    (Exits 1,
     set_trace
       (trace w1 ++
        [call_stderr ("Failed to create device list. No multitouch device found." +:+ newline)])
       w1)
  else
    let w2 := set_cf_arrays (<[a := l]> (cf_arrays w1)) w1 in
    if bool_decide (l = []) then
      (Exits 1,
       set_trace
         (trace w2 ++
          [call_stderr ("No Multitouch devices found." +:+ newline); call_CFRelease a])
         w2)
    else (Returns {| array := a; len := Z.of_nat (length l) |}, w2).
Proof.
  cbv zeta. unfold Backend.multitouch_devices.
  set (a := (device_list os (n_lists (asked w))).1).
  set (l := (device_list os (n_lists (asked w))).2).
  set (w1 := set_trace _ (set_asked _ w)).
  assert (Hlist : MTDeviceCreateList os w =
            (Returns a, if bool_decide (a = NULL) then w1
                        else set_cf_arrays (<[a := l]> (cf_arrays w1)) w1)).
  { unfold MTDeviceCreateList, mbind, M_bind, gets, modify, emit, mret, M_ret.
    cbn. fold a. by destruct (bool_decide (a = NULL)). }
  rewrite (bind_step _ _ _ _ _ Hlist).
  destruct (bool_decide (a = NULL)) eqn:Ha; [done|].
  apply bool_decide_eq_false in Ha.
  rewrite (bind_step _ _ _ _ _ (CFArrayGetCount_live a l _ (lookup_insert_eq _ _ _))).
  destruct (decide (l = [])) as [Hl|Hl].
  - rewrite Hl, !bool_decide_eq_true_2 by done.
    unfold mbind, M_bind, fputs_stderr, CFRelease, emit, modify, exit, set_trace.
    cbn. by rewrite <- app_assoc.
  - rewrite (bool_decide_eq_false_2 (l = [])) by done.
    rewrite (bool_decide_eq_false_2 (Z.of_nat _ = 0)); [done|].
    destruct l; [done | cbn [length]; lia].
Qed.

(** X7: [multitouch_devices] asks for the device list once, and then either
    exits with status 1 (after saying that the list could not be created when
    the OS answers [NULL]; after saying that no device was found, and
    releasing the list, when the list is empty) or returns the list with its
    count as length.  The program state is not touched. *)
Theorem multitouch_devices_outcome os w :
  let a := (device_list os (n_lists (asked w))).1 in
  let l := (device_list os (n_lists (asked w))).2 in
  let r := Backend.multitouch_devices os w in
  r.1 = (if bool_decide (a = NULL) then Exits 1
         else if bool_decide (l = []) then Exits 1
         else Returns {| array := a; len := Z.of_nat (length l) |}) ∧
  trace r.2 = trace w ++ call_MTDeviceCreateList ::
    (if bool_decide (a = NULL)
     then [call_stderr ("Failed to create device list. No multitouch device found." +:+ newline)]
     else if bool_decide (l = [])
     then [call_stderr ("No Multitouch devices found." +:+ newline); call_CFRelease a]
     else []) ∧
  state r.2 = state w.
Proof.
  cbv zeta. rewrite multitouch_devices_unfold. cbv zeta.
  destruct (bool_decide (_ = NULL)).
  { repeat split. cbn. by rewrite <- app_assoc. }
  destruct (bool_decide (_ = [])); repeat split; cbn; by rewrite <- app_assoc.
Qed.

(** X8: a set that [multitouch_devices] returns is never empty and can be
    walked: its array is not [NULL], its length is positive, and the array
    is live and holds exactly [len] entries. *)
Theorem multitouch_devices_returns_live_set os w d w' :
  Backend.multitouch_devices os w = (Returns d, w') →
  array d ≠ NULL ∧ 0 < len d ∧
  ∃ l, cf_arrays w' !! array d = Some l ∧ len d = Z.of_nat (length l) ∧
       members (cf_arrays w') d = Some l.
Proof.
  rewrite multitouch_devices_unfold. cbv zeta.
  case_bool_decide as Ha; [done|]. case_bool_decide as Hl; [done|].
  intros [= <- <-]. cbn [array len].
  split; [done|]. split.
  { destruct (device_list os (n_lists (asked w))).2; [done | cbn [length]; lia]. }
  eexists. split; [cbn; apply lookup_insert_eq|]. split; [done|].
  apply members_whole. cbn. apply lookup_insert_eq.
Qed.

Lemma multitouch_devices_returns_live_set_witness :
  let r := Backend.multitouch_devices denying_os (click_world 0 false 1) in
  ∃ d w', r = (Returns d, w') ∧
    array d ≠ NULL ∧ 0 < len d ∧
    ∃ l, cf_arrays w' !! array d = Some l ∧ len d = Z.of_nat (length l) ∧
         members (cf_arrays w') d = Some l.
Proof.
  cbv zeta. eexists _, _. split; [vm_compute; reflexivity|].
  eapply (multitouch_devices_returns_live_set denying_os (click_world 0 false 1)).
  vm_compute. reflexivity.
Defined.

(** X9: when a device arrives and the OS then lists at least one device,
    [devices_refresh] tears the current set down, asks for the list once,
    stores the new set (the new array with its count as length) in the
    program state and registers every handle of it, in this order; the other
    fields of the state are left alone. *)
Theorem devices_refresh_replaces_set os w old :
  members (cf_arrays w) (devices (state w)) = Some old →
  (device_list os (n_lists (asked w))).1 ≠ NULL →
  (device_list os (n_lists (asked w))).2 ≠ [] →
  let a := (device_list os (n_lists (asked w))).1 in
  let l := (device_list os (n_lists (asked w))).2 in
  Backend.devices_refresh os w =
  (Returns tt,
   set_trace
     (trace w ++ teardown_calls old ++ [call_MTDeviceCreateList] ++ register_calls l)
     (set_state (with_devices {| array := a; len := Z.of_nat (length l) |} (state w))
        (set_cf_arrays (<[a := l]> (cf_arrays w))
           (set_asked (bump_lists (asked w)) w)))).
Proof.
  intros Hold Ha Hl. cbv zeta. unfold Backend.devices_refresh.
  rewrite (bind_step _ _ w (devices (state w)) w) by reflexivity.
  rewrite (bind_step _ _ _ _ _ (devices_cleanup_members _ w old Hold)).
  rewrite bind_unfold, multitouch_devices_unfold. cbv zeta.
  cbn [asked set_trace].
  rewrite (bool_decide_eq_false_2 (_ = NULL)) by done.
  rewrite (bool_decide_eq_false_2 (_ = [])) by done.
  rewrite bind_unfold. cbn [modify].
  rewrite (devices_register_members _ _ _ (device_list os (n_lists (asked w))).2).
  - f_equal. unfold set_trace, set_state, set_cf_arrays, set_asked. cbn.
    by rewrite <- !app_assoc.
  - apply members_whole. cbn. apply lookup_insert_eq.
Qed.

Lemma devices_refresh_replaces_set_witness :
  Backend.devices_refresh denying_os two_devices_world =
  (Returns tt,
   set_trace
     (trace two_devices_world ++ teardown_calls [100; 101] ++
      [call_MTDeviceCreateList] ++ register_calls [100; 101])
     (set_state
        (with_devices {| array := 50; len := 2 |} (state two_devices_world))
        (set_cf_arrays (<[50 := [100; 101]]> (cf_arrays two_devices_world))
           (set_asked (bump_lists (asked two_devices_world)) two_devices_world)))).
Proof.
  apply (devices_refresh_replaces_set denying_os two_devices_world [100; 101]);
    [reflexivity | by vm_compute | by vm_compute].
Defined.

(** X10: when a device arrives and the OS then lists no device (no list, or
    an empty one), [devices_refresh] has torn the current set down before it
    asks, and the process exits with status 1 from inside the callback; the
    program state still names the set that was torn down. *)
Theorem devices_refresh_without_devices_exits os w old :
  members (cf_arrays w) (devices (state w)) = Some old →
  (device_list os (n_lists (asked w))).1 = NULL ∨
  (device_list os (n_lists (asked w))).2 = [] →
  ∃ w' t, Backend.devices_refresh os w = (Exits 1, w') ∧
          trace w' = trace w ++ teardown_calls old ++ call_MTDeviceCreateList :: t ∧
          Forall (λ c, is_multitouch_call c = false) t ∧
          state w' = state w.
Proof.
  intros Hold Hnone. unfold Backend.devices_refresh.
  rewrite (bind_step _ _ w (devices (state w)) w) by reflexivity.
  rewrite (bind_step _ _ _ _ _ (devices_cleanup_members _ w old Hold)).
  rewrite bind_unfold, multitouch_devices_unfold. cbv zeta.
  cbn [asked set_trace].
  case_bool_decide as Ha.
  { eexists _, [_]. split; [reflexivity|]. cbn. rewrite <- !app_assoc.
    repeat split. by repeat constructor. }
  destruct Hnone as [?| ->]; [done|].
  rewrite bool_decide_eq_true_2 by done.
  eexists _, [_; _]. split; [reflexivity|]. cbn. rewrite <- !app_assoc.
  repeat split. by repeat constructor.
Qed.

Lemma devices_refresh_without_devices_exits_witness :
  let os := {| device_list := λ _, (NULL, []); notification_port := 60;
               matching_notification := (KERN_SUCCESS, []); event_tap := λ _, NULL;
               run_loop_source := λ _, NULL; run_loop := λ _, [] |} in
  ∃ w' t, Backend.devices_refresh os two_devices_world = (Exits 1, w') ∧
          trace w' = trace two_devices_world ++ teardown_calls [100; 101] ++
                     call_MTDeviceCreateList :: t ∧
          Forall (λ c, is_multitouch_call c = false) t ∧
          state w' = state two_devices_world.
Proof.
  cbv zeta. apply devices_refresh_without_devices_exits; [reflexivity | by left].
Defined.

(** ** Device notifications *)

Lemma drain_iterator_unfold items w :
  Backend.drain_iterator items w =
  (Returns tt, set_trace (trace w ++ (call_IOObjectRelease <$> before_zero items)) w).
Proof.
  revert w. induction items as [|item rest IH]; intros w; cbn [Backend.drain_iterator before_zero].
  { cbn. by rewrite set_trace_nil. }
  case_bool_decide; [|cbn; by rewrite set_trace_nil].
  rewrite (bind_step _ _ w tt (set_trace (trace w ++ [call_IOObjectRelease item]) w))
    by reflexivity.
  rewrite IH. f_equal. by rewrite set_trace_app.
Qed.

(** [listen_io_notification] of backend.c in closed form. *)
Lemma listen_io_notification_unfold os w :
  Backend.listen_io_notification os w =
  (Returns (matching_notification os).1,
   set_trace
     (trace w ++
      [call_IONotificationPortCreate;
       call_CFRunLoopAddSource (notification_port os);
       call_IOServiceAddMatchingNotification (notification_port os)] ++
      (if bool_decide ((matching_notification os).1 = KERN_SUCCESS)
       then call_IOObjectRelease <$> before_zero (matching_notification os).2
       else []))
     (set_state (with_port (notification_port os) (state w)) w)).
Proof.
  unfold Backend.listen_io_notification.
  do 6 (erewrite bind_step by reflexivity). cbv zeta.
  destruct (bool_decide ((matching_notification os).1 = KERN_SUCCESS)).
  - erewrite bind_step by apply drain_iterator_unfold.
    cbn. f_equal. unfold set_trace, set_state. cbn. by rewrite <- !app_assoc.
  - erewrite bind_step by reflexivity.
    cbn. f_equal. unfold set_trace, set_state. cbn. by rewrite <- !app_assoc.
Qed.

(** X11: [listen_io_notification] of backend.c always returns, with the
    status the OS gave to [IOServiceAddMatchingNotification].  It stores the
    new port in the program state whether the notification was accepted or
    not and leaves the other fields alone; it makes the three calls of the
    setup in order, and then releases the objects the iterator yields, up to
    the first 0, if the notification was accepted, and nothing if it was
    refused: a refused port is left to the caller. *)
Theorem listen_io_notification_outcome os w :
  ∃ w', Backend.listen_io_notification os w
          = (Returns (matching_notification os).1, w') ∧
        state w' = with_port (notification_port os) (state w) ∧
        trace w' = trace w ++
          [call_IONotificationPortCreate;
           call_CFRunLoopAddSource (notification_port os);
           call_IOServiceAddMatchingNotification (notification_port os)] ++
          (call_IOObjectRelease <$>
             (if bool_decide ((matching_notification os).1 = KERN_SUCCESS)
              then before_zero (matching_notification os).2 else [])) ∧
        cf_arrays w' = cf_arrays w ∧
        current_fingers w' = current_fingers w ∧
        is_middle_click w' = is_middle_click w.
Proof.
  rewrite listen_io_notification_unfold. eexists; split; [reflexivity|].
  repeat split. cbn. by destruct (bool_decide _).
Qed.

(** [stop_io_notifications] in closed form. *)
Lemma stop_io_notifications_unfold w :
  Backend.stop_io_notifications w =
  (Returns tt,
   if bool_decide (port (state w) ≠ NULL)
   then set_state (with_port NULL (state w))
          (set_trace (trace w ++ [call_IONotificationPortDestroy (port (state w))]) w)
   else w).
Proof.
  unfold Backend.stop_io_notifications. rewrite bind_unfold. cbn [gets].
  by case_bool_decide.
Qed.

(** X12: stopping the notifications is idempotent: the port is destroyed at
    most once, because the first call resets it to [NULL] and the second
    call then finds nothing to do. *)
Theorem stop_io_notifications_idempotent w :
  (Backend.stop_io_notifications ;; Backend.stop_io_notifications) w
  = Backend.stop_io_notifications w ∧
  port (state (Backend.stop_io_notifications w).2) = NULL.
Proof.
  rewrite (bind_step _ _ _ _ _ (stop_io_notifications_unfold w)).
  rewrite !stop_io_notifications_unfold.
  destruct (decide (port (state w) = NULL)) as [Hport|Hport].
  - by rewrite !(bool_decide_eq_false_2 (port (state w) ≠ NULL)) by (by intros H).
  - rewrite !(bool_decide_eq_true_2 (port (state w) ≠ NULL)) by done. cbn.
    by rewrite bool_decide_eq_false_2 by (by intros H).
Qed.

(** [stop_click_loop] in closed form. *)
Lemma stop_click_loop_unfold w :
  Backend.stop_click_loop w =
  (Returns tt,
   let tap := tap_event (state w) in
   let src := run_loop_src (state w) in
   let w1 := if bool_decide (tap ≠ NULL)
             then set_state (with_tap_event NULL (state w))
                    (set_trace (trace w ++ [call_CGEventTapEnable tap false;
                                            call_CFRelease tap]) w)
             else w in
   if bool_decide (src ≠ NULL)
   then set_trace (trace w1 ++ [call_CFRunLoopRemoveSource src; call_CFRelease src]) w1
   else w1).
Proof.
  unfold Backend.stop_click_loop, mbind, M_bind, gets, CGEventTapEnable,
    CFRelease, CFRunLoopRemoveSource, emit, modify.
  destruct (bool_decide (tap_event (state w) ≠ NULL)); cbn;
    destruct (bool_decide (run_loop_src (state w) ≠ NULL)); cbn;
    try done; f_equal; unfold set_trace, set_state; cbn; by rewrite <- !app_assoc.
Qed.

(** X13: [stop_click_loop] resets [tap_event] but not [run_loop_src].  After
    one call the tap is gone from the state, so a second call never disables
    or releases the tap again; the run loop source is still in the state, so
    the second call removes and releases it once more whenever it is not
    [NULL]. *)
Theorem stop_click_loop_again w :
  let w1 := (Backend.stop_click_loop w).2 in
  let src := run_loop_src (state w) in
  tap_event (state w1) = NULL ∧
  run_loop_src (state w1) = src ∧
  Backend.stop_click_loop w1 =
    (Returns tt,
     set_trace
       (trace w1 ++
        (if bool_decide (src ≠ NULL)
         then [call_CFRunLoopRemoveSource src; call_CFRelease src] else []))
       w1).
Proof.
  cbv zeta. rewrite (stop_click_loop_unfold w). cbv zeta. cbn [snd].
  set (w1 := if bool_decide (run_loop_src (state w) ≠ NULL) then _ else _).
  assert (Htap : tap_event (state w1) = NULL).
  { subst w1. destruct (decide (tap_event (state w) = NULL)) as [Ht|Ht].
    - rewrite (bool_decide_eq_false_2 (tap_event _ ≠ NULL)) by (by intros H).
      by destruct (bool_decide (run_loop_src _ ≠ NULL)).
    - rewrite (bool_decide_eq_true_2 (tap_event _ ≠ NULL)) by done.
      by destruct (bool_decide (run_loop_src _ ≠ NULL)). }
  assert (Hsrc : run_loop_src (state w1) = run_loop_src (state w)).
  { subst w1. by destruct (bool_decide (tap_event _ ≠ NULL)),
      (bool_decide (run_loop_src _ ≠ NULL)). }
  repeat split; [done..|].
  rewrite stop_click_loop_unfold. cbv zeta. rewrite Htap, Hsrc.
  rewrite (bool_decide_eq_false_2 (NULL ≠ NULL)) by (by intros H).
  destruct (bool_decide (run_loop_src (state w) ≠ NULL)); [done|].
  by rewrite set_trace_nil.
Qed.

(** ** Start up with a refused notification *)

(** X14: when the OS refuses the device notification, [run_click_loop] of
    backend.c returns at once, whatever the fuel: it has registered the
    devices, set the notification up, said that the notification could not
    be added, destroyed the port (if it got one) and torn the devices down
    once; it never asked for the event tap, and the port in the state is
    [NULL] again. *)
Theorem refused_notification_unwinds os fuel w hs :
  members (cf_arrays w) (devices (state w)) = Some hs →
  (matching_notification os).1 ≠ KERN_SUCCESS →
  let p := notification_port os in
  Backend.run_click_loop os fuel w =
  (Returns tt,
   set_state (with_port NULL (state w))
     (set_trace
        (trace w ++ register_calls hs ++
         [call_IONotificationPortCreate; call_CFRunLoopAddSource p;
          call_IOServiceAddMatchingNotification p;
          call_stderr "Failed to add device notification."] ++
         (if bool_decide (p ≠ NULL) then [call_IONotificationPortDestroy p] else []) ++
         teardown_calls hs)
        w)).
Proof.
  intros Hm Hkres. cbv zeta. unfold Backend.run_click_loop.
  rewrite (bind_step _ _ w (state w) w) by reflexivity.
  rewrite (bind_step _ _ _ _ _ (devices_register_members _ _ w hs Hm)).
  rewrite (bind_step _ _ _ _ _ (listen_io_notification_unfold os _)).
  rewrite (bool_decide_eq_true_2 (_ ≠ KERN_SUCCESS)) by done.
  rewrite (bool_decide_eq_false_2 (_ = KERN_SUCCESS)) by done.
  erewrite bind_step by reflexivity.
  rewrite (bind_step _ _ _ _ _ (stop_io_notifications_unfold _)).
  erewrite bind_step by reflexivity.
  cbn [state set_state set_trace port with_port devices].
  destruct (bool_decide (notification_port os ≠ NULL)) eqn:Hp.
  - rewrite (devices_cleanup_members _ _ hs) by done.
    f_equal. unfold set_trace, set_state, with_port. cbn. by rewrite <- !app_assoc.
  - rewrite (devices_cleanup_members _ _ hs) by done.
    apply bool_decide_eq_false in Hp. apply dec_stable in Hp.
    f_equal. unfold set_trace, set_state, with_port. cbn.
    rewrite Hp, <- !app_assoc. done.
Qed.

Lemma refused_notification_unwinds_witness :
  Backend.run_click_loop refusing_os 7 two_devices_world =
  (Returns tt,
   set_state (with_port NULL (state two_devices_world))
     (set_trace
        (trace two_devices_world ++ register_calls [100; 101] ++
         [call_IONotificationPortCreate; call_CFRunLoopAddSource 60;
          call_IOServiceAddMatchingNotification 60;
          call_stderr "Failed to add device notification."] ++
         (if bool_decide (60 ≠ NULL) then [call_IONotificationPortDestroy 60] else []) ++
         teardown_calls [100; 101])
        two_devices_world)).
Proof.
  apply (refused_notification_unwinds refusing_os 7 two_devices_world [100; 101]);
    [reflexivity | by vm_compute].
Defined.

(** The device functions of main.c are those of backend.c. *)
Lemma main_device_functions :
  Main.multitouch_devices = Backend.multitouch_devices ∧
  Main.devices_register = Backend.devices_register ∧
  Main.devices_cleanup = Backend.devices_cleanup ∧
  Main.drain_iterator = Backend.drain_iterator.
Proof. repeat split. Qed.

(** [listen_io_notification] of main.c in closed form. *)
Lemma main_listen_io_notification_unfold os p w :
  Main.listen_io_notification os p w =
  (Returns (matching_notification os).1,
   set_trace
     (trace w ++
      [call_CFRunLoopAddSource p; call_IOServiceAddMatchingNotification p] ++
      (if bool_decide ((matching_notification os).1 ≠ KERN_SUCCESS)
       then [call_IONotificationPortDestroy p]
       else call_IOObjectRelease <$> before_zero (matching_notification os).2))
     w).
Proof.
  unfold Main.listen_io_notification.
  do 2 (erewrite bind_step by reflexivity). cbv zeta.
  destruct (bool_decide ((matching_notification os).1 ≠ KERN_SUCCESS)).
  - erewrite bind_step by reflexivity.
    cbn. f_equal. unfold set_trace. cbn. by rewrite <- !app_assoc.
  - erewrite bind_step by apply drain_iterator_unfold.
    cbn. f_equal. unfold set_trace. cbn. by rewrite <- !app_assoc.
Qed.

(** X15: when the OS lists devices but refuses the device notification,
    [main] of main.c returns 1, whatever the fuel: it has asked for the list,
    registered the devices, set the notification up, destroyed the port
    (inside [listen_io_notification], without testing it), said that the
    notification could not be added and torn the devices down once; it never
    asked for the event tap. *)
Theorem main_refused_notification_returns_1 os fuel w :
  (device_list os (n_lists (asked w))).1 ≠ NULL →
  (device_list os (n_lists (asked w))).2 ≠ [] →
  (matching_notification os).1 ≠ KERN_SUCCESS →
  let a := (device_list os (n_lists (asked w))).1 in
  let l := (device_list os (n_lists (asked w))).2 in
  let p := notification_port os in
  Main.main os fuel w =
  (Returns 1,
   set_trace
     (trace w ++ [call_MTDeviceCreateList] ++ register_calls l ++
      [call_IONotificationPortCreate; call_CFRunLoopAddSource p;
       call_IOServiceAddMatchingNotification p; call_IONotificationPortDestroy p;
       call_stderr "Failed to add device notification."] ++
      teardown_calls l)
     (set_state (with_devices {| array := a; len := Z.of_nat (length l) |} (state w))
        (set_cf_arrays (<[a := l]> (cf_arrays w))
           (set_asked (bump_lists (asked w)) w)))).
Proof.
  intros Ha Hl Hkres. cbv zeta. unfold Main.main.
  destruct main_device_functions as (-> & -> & -> & _).
  rewrite bind_unfold, multitouch_devices_unfold. cbv zeta.
  rewrite (bool_decide_eq_false_2 (_ = NULL)) by done.
  rewrite (bool_decide_eq_false_2 (_ = [])) by done.
  erewrite bind_step by reflexivity.
  set (l := (device_list os (n_lists (asked w))).2).
  set (a := (device_list os (n_lists (asked w))).1).
  erewrite bind_step.
  2:{ apply (devices_register_members _ _ _ l). apply members_whole.
      cbn. apply lookup_insert_eq. }
  erewrite bind_step by reflexivity.
  erewrite bind_step by apply main_listen_io_notification_unfold.
  rewrite !(bool_decide_eq_true_2 (_ ≠ KERN_SUCCESS)) by done.
  do 2 (erewrite bind_step by reflexivity).
  erewrite bind_step.
  2:{ apply (devices_cleanup_members _ _ l). apply members_whole.
      cbn. apply lookup_insert_eq. }
  cbn. f_equal. unfold set_trace, set_state, set_cf_arrays, set_asked. cbn.
  by rewrite <- !app_assoc.
Qed.

Lemma main_refused_notification_returns_1_witness :
  Main.main refusing_os 7 (click_world 0 false 1) =
  (Returns 1,
   set_trace
     (trace (click_world 0 false 1) ++ [call_MTDeviceCreateList] ++
      register_calls [100; 101] ++
      [call_IONotificationPortCreate; call_CFRunLoopAddSource 60;
       call_IOServiceAddMatchingNotification 60; call_IONotificationPortDestroy 60;
       call_stderr "Failed to add device notification."] ++
      teardown_calls [100; 101])
     (set_state (with_devices {| array := 50; len := 2 |} (state (click_world 0 false 1)))
        (set_cf_arrays (<[50 := [100; 101]]> (cf_arrays (click_world 0 false 1)))
           (set_asked (bump_lists (asked (click_world 0 false 1)))
              (click_world 0 false 1))))).
Proof.
  apply (main_refused_notification_returns_1 refusing_os 7 (click_world 0 false 1));
    by vm_compute.
Defined.

(** ** The acquisition under any OS *)

Lemma first_granted (answer : nat → Z) n :
  (∀ j, (j < n)%nat → answer j = NULL) ∨
  ∃ k, (k < n)%nat ∧ answer k ≠ NULL ∧ ∀ j, (j < k)%nat → answer j = NULL.
Proof.
  induction n as [|n [IH|(k & Hk & Hgranted & Hbefore)]].
  - left. lia.
  - destruct (decide (answer n = NULL)) as [Hn|Hn].
    + left. intros j Hj. destruct (decide (j = n)) as [->|]; [done|]. apply IH. lia.
    + right. exists n. split; [lia|]. split; [done|]. intros j Hj. by apply IH.
  - right. exists k. split; [lia|]. done.
Qed.

(** X16: whatever the OS answers, the loop of [listen_click_loop] comes to
    an end, after at most 300 requests for the tap.  Entered with a tap in
    the state it makes no request and changes nothing; it ends without a tap
    only when it has made exactly 300 requests. *)
Theorem tap_loop_always_ends os w :
  ∃ w', Backend.tap_loop os 301 0 w = (Returns tt, w') ∧
        (n_taps (asked w) ≤ n_taps (asked w') ≤ n_taps (asked w) + 300)%nat ∧
        (tap_event (state w) ≠ NULL → w' = w) ∧
        (tap_event (state w') = NULL →
         n_taps (asked w') = (n_taps (asked w) + 300)%nat).
Proof.
  destruct (decide (tap_event (state w) = NULL)) as [Htap|Htap].
  - destruct (first_granted (λ j, event_tap os (n_taps (asked w) + j)%nat) 300)
      as [Hrefused|(k & Hk & Hgranted & Hrefused)].
    + exists (after_failed_attempts 300 w).
      split; [by apply tap_loop_gives_up|]. cbn. repeat split; (done || lia).
    + exists (after_granted_attempt os k w).
      split; [by apply tap_loop_granted|]. cbn. repeat split; (done || lia).
  - exists w. rewrite tap_loop_unfold.
    rewrite (bool_decide_eq_false_2 (tap_event _ = NULL)) by done.
    repeat split; (done || lia).
Qed.

(** ** How [listen_click_loop] and [run_click_loop] can return *)

(** X17: [listen_click_loop] of backend.c returns 0 or 1 and nothing else.
    It returns 0 only by way of [stop_click_loop], so without a tap in the
    state.  It returns 1 only right after one of its two messages: the one
    about the permission, with no tap in the state, or the one about the run
    loop source, with the tap still in the state and no source. *)
Theorem listen_click_loop_results os w r w' :
  Backend.listen_click_loop os w = (Returns r, w') →
  (r = 0 ∧ tap_event (state w') = NULL) ∨
  (r = 1 ∧ tap_event (state w') = NULL ∧
   ∃ before, trace w' = before ++ [call_stderr permission_message]) ∨
  (r = 1 ∧ tap_event (state w') ≠ NULL ∧ run_loop_src (state w') = NULL ∧
   ∃ before, trace w' = before ++ [call_stderr "Failed to create run loop source."]).
Proof.
  unfold Backend.listen_click_loop.
  intros ([] & w1 & _ & Hrest)%bind_returns.
  apply bind_returns in Hrest as (st & ? & [= <- <-] & Hrest).
  case_bool_decide as Htap.
  { apply bind_returns in Hrest as ([] & w2 & [= <-] & [= <- <-]).
    right. left. repeat split; [done|]. by eexists. }
  apply bind_returns in Hrest as (src & w2 & Hsrc & Hrest).
  apply bind_returns in Hrest as ([] & w3 & [= <-] & Hrest).
  apply bind_returns in Hrest as (st & ? & [= <- <-] & Hrest).
  assert (Htap2 : tap_event (state w2) = tap_event (state w1)).
  { unfold CFMachPortCreateRunLoopSource in Hsrc.
    apply bind_returns in Hsrc as (? & ? & [= <- <-] & Hsrc).
    apply bind_returns in Hsrc as ([] & ? & [= <-] & Hsrc).
    by apply bind_returns in Hsrc as ([] & ? & [= <-] & [= <- <-]). }
  case_bool_decide as Hnosrc.
  { apply bind_returns in Hrest as ([] & w4 & [= <-] & [= <- <-]).
    right. right. cbn in *. rewrite Htap2. repeat split; [done..|]. by eexists. }
  apply bind_returns in Hrest as ([] & w4 & _ & Hrest).
  apply bind_returns in Hrest as ([] & w5 & _ & Hrest).
  apply bind_returns in Hrest as ([] & w6 & _ & Hrest).
  apply bind_returns in Hrest as ([] & w7 & Hstop & [= <- <-]).
  left. split; [done|].
  destruct (stop_click_loop_clears_tap w6) as (w8 & Hstop' & Htap8).
  rewrite Hstop' in Hstop. by injection Hstop as <-.
Qed.

Lemma listen_click_loop_results_witness :
  let r := Backend.listen_click_loop denying_os two_devices_world in
  (1 = 0 ∧ tap_event (state r.2) = NULL) ∨
  (1 = 1 ∧ tap_event (state r.2) = NULL ∧
   ∃ before, trace r.2 = before ++ [call_stderr permission_message]) ∨
  (1 = 1 ∧ tap_event (state r.2) ≠ NULL ∧ run_loop_src (state r.2) = NULL ∧
   ∃ before, trace r.2 = before ++ [call_stderr "Failed to create run loop source."]).
Proof.
  cbv zeta. apply (listen_click_loop_results denying_os two_devices_world).
  vm_compute. reflexivity.
Defined.

Lemma listen_click_loop_fails_with_message os w r w' :
  Backend.listen_click_loop os w = (Returns r, w') →
  r ≠ 0 →
  ∃ before msg,
    trace w' = before ++ [call_stderr msg] ∧
    msg ∈ [permission_message; "Failed to create run loop source."].
Proof.
  unfold Backend.listen_click_loop.
  intros ([] & w1 & _ & Hrest)%bind_returns Hr.
  apply bind_returns in Hrest as (st & ? & [= <- <-] & Hrest).
  case_bool_decide.
  { apply bind_returns in Hrest as ([] & w2 & [= <-] & [= <- <-]).
    eexists _, _. split; [done|]. set_solver. }
  apply bind_returns in Hrest as (src & w2 & _ & Hrest).
  apply bind_returns in Hrest as ([] & w3 & _ & Hrest).
  apply bind_returns in Hrest as (st & ? & [= <- <-] & Hrest).
  case_bool_decide.
  { apply bind_returns in Hrest as ([] & w4 & [= <-] & [= <- <-]).
    eexists _, _. split; [done|]. set_solver. }
  apply bind_returns in Hrest as ([] & w4 & _ & Hrest).
  apply bind_returns in Hrest as ([] & w5 & _ & Hrest).
  apply bind_returns in Hrest as ([] & w6 & _ & Hrest).
  by apply bind_returns in Hrest as ([] & w7 & _ & [= <- <-]).
Qed.

Lemma teardown_calls_silent hs :
  Forall (λ c, ∀ msg, c ≠ call_stderr msg) (teardown_calls hs).
Proof.
  induction hs as [|d hs IH]; [constructor|].
  rewrite teardown_calls_cons. apply Forall_app_2; [|done].
  unfold teardown_calls. cbn. case_bool_decide; by repeat constructor.
Qed.

Lemma teardown_calls_are_teardown hs :
  Forall (λ c, is_teardown_call c = true) (teardown_calls hs).
Proof.
  induction hs as [|d hs IH]; [constructor|].
  rewrite teardown_calls_cons. apply Forall_app_2; [|done].
  unfold teardown_calls. cbn. case_bool_decide; by repeat constructor.
Qed.

Lemma click_loop_returns_after_message os fuel w w' :
  Backend.click_loop os fuel w = (Returns tt, w') →
  port (state w') = NULL ∧
  ∃ before msg hs stop,
    trace w' = before ++ call_stderr msg :: teardown_calls hs ++ stop ∧
    msg ∈ [permission_message; "Failed to create run loop source."] ∧
    members (cf_arrays w') (devices (state w')) = Some hs ∧
    (stop = [] ∨ ∃ p, stop = [call_IONotificationPortDestroy p]).
Proof.
  revert w. induction fuel as [|fuel IH]; intros w; cbn [Backend.click_loop]; [done|].
  intros (r & w2 & Hloop & Hrest)%bind_returns.
  case_bool_decide as Hr; [|by eapply IH].
  apply (listen_click_loop_fails_with_message _ _ _ _ Hloop) in Hr
    as (before & msg & Htrace & Hmsg).
  apply bind_returns in Hrest as (st & ? & [= <- <-] & Hrest).
  apply bind_returns in Hrest as ([] & w3 & Hclean & Hstop).
  apply devices_cleanup_returns in Hclean as (hs & Hhs & ->).
  rewrite stop_io_notifications_unfold in Hstop. injection Hstop as <-.
  case_bool_decide as Hport; cbn.
  - split; [done|]. exists before, msg, hs. eexists. rewrite Htrace, <- !app_assoc.
    split; [reflexivity|]. split; [done|]. split; [done|]. right. by eexists.
  - split; [done|]. exists before, msg, hs, []. rewrite Htrace, <- !app_assoc, app_nil_r.
    split; [reflexivity|]. split; [done|]. split; [done|]. by left.
Qed.

(** X18: [run_click_loop] never returns just because a cycle of the run
    loop came to an end.  Whenever it returns, the last thing written to
    [stderr] is one of the three fatal messages (notification refused,
    permission missing, no run loop source), nothing but teardown calls
    follows it, and the notification port in the state is [NULL].  The calls
    that follow are exactly one teardown of the handles of the device set and
    at most one [IONotificationPortDestroy]: the port first when the
    notification was refused, the devices first otherwise. *)
Theorem run_click_loop_returns_after_fatal_message os fuel w w' :
  Backend.run_click_loop os fuel w = (Returns tt, w') →
  port (state w') = NULL ∧
  ∃ before msg after,
    trace w' = before ++ call_stderr msg :: after ∧
    msg ∈ ["Failed to add device notification."; permission_message;
           "Failed to create run loop source."] ∧
    Forall (λ c, ∀ s, c ≠ call_stderr s) after ∧
    Forall (λ c, is_teardown_call c = true) after ∧
    ∃ hs stop,
      members (cf_arrays w') (devices (state w')) = Some hs ∧
      (stop = [] ∨ ∃ p, stop = [call_IONotificationPortDestroy p]) ∧
      after = if bool_decide (msg = "Failed to add device notification.")
              then stop ++ teardown_calls hs
              else teardown_calls hs ++ stop.
Proof.
  assert (Hstop : ∀ stop,
            stop = [] ∨ (∃ p, stop = [call_IONotificationPortDestroy p]) →
            Forall (λ c, ∀ s, c ≠ call_stderr s) stop ∧
            Forall (λ c, is_teardown_call c = true) stop).
  { intros stop [->|[p ->]]; split; by repeat constructor. }
  unfold Backend.run_click_loop.
  intros (st & ? & [= <- <-] & Hrest)%bind_returns.
  apply bind_returns in Hrest as ([] & w2 & _ & Hrest).
  apply bind_returns in Hrest as (kres & w3 & _ & Hrest).
  case_bool_decide.
  - apply bind_returns in Hrest as ([] & w4 & [= <-] & Hrest).
    apply bind_returns in Hrest as ([] & w5 & Hstop5 & Hrest).
    apply bind_returns in Hrest as (st & ? & [= <- <-] & Hclean).
    apply devices_cleanup_returns in Hclean as (hs & Hhs & ->).
    rewrite stop_io_notifications_unfold in Hstop5. injection Hstop5 as <-.
    revert Hhs. case_bool_decide as Hport; cbn; intros Hhs.
    + split; [done|].
      exists (trace w3), "Failed to add device notification.",
        ([call_IONotificationPortDestroy (port (state w3))] ++ teardown_calls hs).
      rewrite <- !app_assoc.
      split; [reflexivity|]. split; [by left|].
      split; [constructor; [done|]; apply teardown_calls_silent|].
      split; [constructor; [done|]; apply teardown_calls_are_teardown|].
      exists hs, [call_IONotificationPortDestroy (port (state w3))].
      split; [done|]. split; [right; by eexists|done].
    + split; [done|].
      exists (trace w3), "Failed to add device notification.", (teardown_calls hs).
      rewrite <- !app_assoc.
      split; [reflexivity|]. split; [by left|].
      split; [apply teardown_calls_silent|].
      split; [apply teardown_calls_are_teardown|].
      exists hs, []. split; [done|]. split; [by left|done].
  - apply click_loop_returns_after_message in Hrest
      as (Hport & before & msg & hs & stop & Htrace & Hmsg & Hhs & Hshape).
    destruct (Hstop stop Hshape) as [Hsilent Hteardown].
    split; [done|]. exists before, msg, (teardown_calls hs ++ stop).
    split; [done|]. split; [by right|].
    split; [apply Forall_app_2; [apply teardown_calls_silent | done]|].
    split; [apply Forall_app_2; [apply teardown_calls_are_teardown | done]|].
    exists hs, stop. split; [done|]. split; [done|].
    rewrite bool_decide_eq_false_2; [done|].
    intros ->. apply elem_of_cons in Hmsg as [Hmsg|Hmsg]; [by vm_compute in Hmsg|].
    apply elem_of_cons in Hmsg as [Hmsg|Hmsg]; [discriminate Hmsg|].
    by apply elem_of_nil in Hmsg.
Qed.

Lemma run_click_loop_returns_after_fatal_message_witness :
  let w' := (Backend.run_click_loop denying_os 1 two_devices_world).2 in
  port (state w') = NULL ∧
  ∃ before msg after,
    trace w' = before ++ call_stderr msg :: after ∧
    msg ∈ ["Failed to add device notification."; permission_message;
           "Failed to create run loop source."] ∧
    Forall (λ c, ∀ s, c ≠ call_stderr s) after ∧
    Forall (λ c, is_teardown_call c = true) after ∧
    ∃ hs stop,
      members (cf_arrays w') (devices (state w')) = Some hs ∧
      (stop = [] ∨ ∃ p, stop = [call_IONotificationPortDestroy p]) ∧
      after = if bool_decide (msg = "Failed to add device notification.")
              then stop ++ teardown_calls hs
              else teardown_calls hs ++ stop.
Proof.
  cbv zeta. apply (run_click_loop_returns_after_fatal_message denying_os 1 two_devices_world).
  vm_compute. reflexivity.
Defined.

(** ** A tap without a run loop source *)

(** X19: when the tap is granted (after [k < 300] refusals) but the run loop
    source cannot be created, [listen_click_loop] of backend.c says so and
    returns 1 at once.  It neither disables nor releases the tap: the tap
    stays in the state, next to a [NULL] source, for [stop_click_loop] to
    release. *)
Theorem tap_without_source_is_kept os k w :
  tap_event (state w) = NULL →
  (k < 300)%nat →
  (∀ j, (j < k)%nat → event_tap os (n_taps (asked w) + j)%nat = NULL) →
  event_tap os (n_taps (asked w) + k)%nat ≠ NULL →
  run_loop_source os (n_sources (asked w)) = NULL →
  let tap := event_tap os (n_taps (asked w) + k)%nat in
  Backend.listen_click_loop os w =
  (Returns 1,
   set_state (with_run_loop_src NULL (with_tap_event tap (state w)))
     (set_trace
        (trace w ++ failed_attempts k ++
         [tap_request; call_CFMachPortCreateRunLoopSource tap;
          call_stderr "Failed to create run loop source."])
        (set_asked (bump_sources (add_taps (S k) (asked w))) w))).
Proof.
  intros Htap Hk Hrefused Hgranted Hsource. cbv zeta.
  unfold Backend.listen_click_loop.
  rewrite (bind_step _ _ _ _ _ (tap_loop_granted os k w Htap Hk Hrefused Hgranted)).
  erewrite bind_step by reflexivity.
  rewrite (bool_decide_eq_false_2 (tap_event _ = NULL)) by done.
  erewrite bind_step by apply CFMachPortCreateRunLoopSource_unfold.
  do 2 (erewrite bind_step by reflexivity).
  cbn [asked after_granted_attempt set_state set_trace set_asked add_taps n_sources
       state run_loop_src with_run_loop_src].
  rewrite Hsource.
  rewrite (bool_decide_eq_true_2 (NULL = NULL)) by done.
  erewrite bind_step by reflexivity.
  cbn. f_equal. unfold set_trace, set_state, set_asked. cbn.
  by rewrite <- !app_assoc.
Qed.

Lemma tap_without_source_is_kept_witness :
  Backend.listen_click_loop (sourceless_os 1) two_devices_world =
  (Returns 1,
   set_state (with_run_loop_src NULL (with_tap_event 80 (state two_devices_world)))
     (set_trace
        (trace two_devices_world ++ failed_attempts 1 ++
         [tap_request; call_CFMachPortCreateRunLoopSource 80;
          call_stderr "Failed to create run loop source."])
        (set_asked (bump_sources (add_taps 2 (asked two_devices_world)))
           two_devices_world))).
Proof.
  apply (tap_without_source_is_kept (sourceless_os 1) 1 two_devices_world);
    [reflexivity | lia | intros [|j] Hj; [reflexivity | lia] | by vm_compute | reflexivity].
Defined.

(** X20: in the same situation [listen_click_loop] of main.c says the same,
    tears the devices down and returns 1.  Its tap is a local, and the
    function returns without having disabled or released it: the calls
    below are all it makes. *)
Theorem main_tap_without_source_is_dropped os k w hs :
  members (cf_arrays w) (devices (state w)) = Some hs →
  (k < 300)%nat →
  (∀ j, (j < k)%nat → event_tap os (n_taps (asked w) + j)%nat = NULL) →
  event_tap os (n_taps (asked w) + k)%nat ≠ NULL →
  run_loop_source os (n_sources (asked w)) = NULL →
  let tap := event_tap os (n_taps (asked w) + k)%nat in
  Main.listen_click_loop os w =
  (Returns 1,
   set_state (with_run_loop_src NULL (with_tap_event tap (state w)))
     (set_trace
        (trace w ++ failed_attempts k ++
         [tap_request; call_CFMachPortCreateRunLoopSource tap;
          call_stderr "Failed to create run loop source."] ++
         teardown_calls hs)
        (set_asked (bump_sources (add_taps (S k) (asked w))) w))).
Proof.
  intros Hm Hk Hrefused Hgranted Hsource. cbv zeta.
  unfold Main.listen_click_loop.
  erewrite bind_step by reflexivity.
  rewrite (bind_step _ _ _ _ _
             (tap_loop_granted os k (set_state (with_tap_event NULL (state w)) w)
                eq_refl Hk Hrefused Hgranted)).
  erewrite bind_step by reflexivity.
  rewrite (bool_decide_eq_false_2 (tap_event _ = NULL)) by done.
  erewrite bind_step by apply CFMachPortCreateRunLoopSource_unfold.
  do 2 (erewrite bind_step by reflexivity).
  cbn [asked after_granted_attempt set_state set_trace set_asked add_taps n_sources
       state run_loop_src with_run_loop_src].
  rewrite Hsource.
  rewrite (bool_decide_eq_true_2 (NULL = NULL)) by done.
  erewrite bind_step by reflexivity.
  destruct main_device_functions as (_ & _ & -> & _).
  erewrite bind_step by (apply (devices_cleanup_members _ _ hs); exact Hm).
  cbn. f_equal. unfold set_trace, set_state, set_asked, with_run_loop_src, with_tap_event.
  cbn. by rewrite <- !app_assoc.
Qed.

Lemma main_tap_without_source_is_dropped_witness :
  Main.listen_click_loop (sourceless_os 1) two_devices_world =
  (Returns 1,
   set_state (with_run_loop_src NULL (with_tap_event 80 (state two_devices_world)))
     (set_trace
        (trace two_devices_world ++ failed_attempts 1 ++
         [tap_request; call_CFMachPortCreateRunLoopSource 80;
          call_stderr "Failed to create run loop source."] ++
         teardown_calls [100; 101])
        (set_asked (bump_sources (add_taps 2 (asked two_devices_world)))
           two_devices_world))).
Proof.
  apply (main_tap_without_source_is_dropped (sourceless_os 1) 1 two_devices_world [100; 101]);
    [reflexivity | lia | intros [|j] Hj; [reflexivity | lia] | by vm_compute | reflexivity].
Defined.

(** ** What a computation leaves alone *)

Section Keeps.
Context {B : Type} (f : world → B).

Lemma keeps_ret {A} (a : A) : keeps f (mret a).
Proof. by intros w. Qed.

Lemma keeps_bind {A C} (m : M A) (k : A → M C) :
  keeps f m → (∀ a, keeps f (k a)) → keeps f (m ≫= k).
Proof.
  intros Hm Hk w. specialize (Hm w). rewrite bind_unfold.
  destruct (m w) as [[a| | |] w1]; cbn in Hm; try done.
  by rewrite (Hk a w1).
Qed.

Lemma keeps_gets {A} (g : world → A) : keeps f (gets g).
Proof. by intros w. Qed.

Lemma keeps_modify (g : world → world) :
  (∀ w, f (g w) = f w) → keeps f (modify g).
Proof. intros Hg w. apply Hg. Qed.

Lemma keeps_exit {A} status : keeps f (exit (A := A) status).
Proof. by intros w. Qed.

Lemma keeps_undefined {A} : keeps f (undefined (A := A)).
Proof. by intros w. Qed.

Lemma keeps_running {A} : keeps f (running (A := A)).
Proof. by intros w. Qed.

Lemma keeps_for_each {A} (l : list A) (body : A → M unit) :
  (∀ x, keeps f (body x)) → keeps f (for_each l body).
Proof.
  intros Hbody. induction l as [|x l IH]; cbn [for_each].
  - apply keeps_ret.
  - apply keeps_bind; [apply Hbody | intros _; apply IH].
Qed.
End Keeps.

Ltac keeps_step :=
  first
    [ assumption
    | apply keeps_ret
    | apply keeps_gets
    | apply keeps_exit
    | apply keeps_undefined
    | apply keeps_running
    | apply keeps_modify; intros ?; reflexivity
    | apply keeps_bind; [|intros ?]
    | apply keeps_for_each; intros ?
    | match goal with
      | |- keeps _ (if ?b then _ else _) => destruct b
      | |- keeps _ (match ?o with Some _ => _ | None => _ end) => destruct o
      end ].

Ltac keeps_calls := repeat keeps_step.

Lemma devices_refresh_keeps os :
  keeps (λ w, (handles w, current_fingers w, is_middle_click w, cg_events w))
    (Backend.devices_refresh os).
Proof.
  unfold Backend.devices_refresh, Backend.multitouch_devices, MTDeviceCreateList,
    Backend.devices_cleanup, Backend.devices_register, CFArrayGetCount,
    CFArrayGetValueAtIndex, fputs_stderr, CFRelease, MTRegisterContactFrameCallback,
    MTDeviceStart, MTUnregisterContactFrameCallback, MTDeviceStop, MTDeviceRelease,
    emit.
  keeps_calls.
Qed.

Lemma deliver_keeps_handles os d :
  keeps handles (deliver (Backend.handlers os) d).
Proof.
  assert (Hrefresh : keeps handles (Backend.devices_refresh os)).
  { intros w. pose proof (devices_refresh_keeps os w) as H.
    by apply (f_equal (λ x, x.1.1.1)) in H. }
  destruct d; cbn [deliver Backend.handlers on_touch on_pointer on_device];
    unfold Backend.touch_callback, Backend.mouse_callback,
      Backend.device_notification_callback, CGEventSetType,
      CGEventSetIntegerValueField, emit;
    keeps_calls.
Qed.

Lemma run_loop_keeps_handles os :
  keeps handles (CFRunLoopRun os (Backend.handlers os)).
Proof.
  unfold CFRunLoopRun, emit. keeps_calls. apply deliver_keeps_handles.
Qed.

(** X21: a device arrival touches the device set and nothing else of the
    program: the notification callback leaves the port, the tap, the run
    loop source, the contact count, the conversion flag and every event as
    they were, however it ends.  Hence nothing the run loop hands over,
    frames, pointer events or device arrivals, can change the port, the tap
    or the run loop source of the program state. *)
Theorem callbacks_keep_handles os :
  (∀ iter,
     keeps (λ w, (handles w, current_fingers w, is_middle_click w, cg_events w))
       (Backend.device_notification_callback os iter)) ∧
  keeps handles (CFRunLoopRun os (Backend.handlers os)).
Proof.
  split.
  - intros iter. apply devices_refresh_keeps.
  - apply run_loop_keeps_handles.
Qed.





(** ** The status of the process *)

Section ExitsOnly.
Context (Q : Z → Prop).

Lemma exits_only_ret {A} (a : A) : exits_only Q (mret a).
Proof. by intros w c. Qed.

Lemma exits_only_bind {A C} (m : M A) (k : A → M C) :
  exits_only Q m → (∀ a, exits_only Q (k a)) → exits_only Q (m ≫= k).
Proof.
  intros Hm Hk w c. specialize (Hm w). rewrite bind_unfold.
  destruct (m w) as [[a| | |] w1]; cbn in *; try done.
  - apply Hk.
  - intros [= <-]. by apply Hm.
Qed.

Lemma exits_only_gets {A} (g : world → A) : exits_only Q (gets g).
Proof. by intros w c. Qed.

Lemma exits_only_modify (g : world → world) : exits_only Q (modify g).
Proof. by intros w c. Qed.

Lemma exits_only_exit {A} status : Q status → exits_only Q (exit (A := A) status).
Proof. intros Hq w c [= <-]. done. Qed.

Lemma exits_only_undefined {A} : exits_only Q (undefined (A := A)).
Proof. by intros w c. Qed.

Lemma exits_only_running {A} : exits_only Q (running (A := A)).
Proof. by intros w c. Qed.

Lemma exits_only_for_each {A} (l : list A) (body : A → M unit) :
  (∀ x, exits_only Q (body x)) → exits_only Q (for_each l body).
Proof.
  intros Hbody. induction l as [|x l IH]; cbn [for_each].
  - apply exits_only_ret.
  - apply exits_only_bind; [apply Hbody | intros _; apply IH].
Qed.

Lemma exits_only_for_int fuel i (cond : Z → M bool) (body : Z → M unit) :
  (∀ j, exits_only Q (cond j)) → (∀ j, exits_only Q (body j)) →
  exits_only Q (for_int fuel i cond body).
Proof.
  intros Hcond Hbody. revert i. induction fuel as [|fuel IH]; intros i; cbn [for_int].
  - apply exits_only_running.
  - apply exits_only_bind; [apply Hcond|]. intros [|].
    + apply exits_only_bind; [apply Hbody | intros _; apply IH].
    + apply exits_only_ret.
Qed.
End ExitsOnly.

Ltac exits_only_step :=
  lazymatch goal with
  | H : exits_only ?Q ?m |- exits_only ?Q ?m => exact H
  | |- exits_only _ (mret _) => apply exits_only_ret
  | |- exits_only _ (gets _) => apply exits_only_gets
  | |- exits_only _ (modify _) => apply exits_only_modify
  | |- exits_only _ (exit _) => apply exits_only_exit; reflexivity
  | |- exits_only _ undefined => apply exits_only_undefined
  | |- exits_only _ running => apply exits_only_running
  | |- exits_only _ (_ ≫= _) => apply exits_only_bind; [|intros ?]
  | |- exits_only _ (for_each _ _) => apply exits_only_for_each; intros ?
  | |- exits_only _ (for_int _ _ _ _) => apply exits_only_for_int; intros ?
  | |- exits_only _ (if ?b then _ else _) => destruct b
  | |- exits_only _ (match ?o with Some _ => _ | None => _ end) => destruct o
  | |- exits_only _ (let _ := _ in _) => cbv zeta
  end.

Ltac exits_only_calls := repeat exits_only_step.

Lemma always_returns_exits_only (Q : Z → Prop) {A} (m : M A) :
  (∀ w, ∃ a w', m w = (Returns a, w')) → exits_only Q m.
Proof. intros Hm w c. destruct (Hm w) as (a & w' & ->). done. Qed.

Lemma devices_walks_exit_1 devs callback :
  exits_only (λ c, c = 1) (Backend.devices_register devs callback) ∧
  exits_only (λ c, c = 1) (Backend.devices_cleanup devs).
Proof.
  unfold Backend.devices_register, Backend.devices_cleanup, CFArrayGetValueAtIndex,
    MTRegisterContactFrameCallback, MTDeviceStart, MTUnregisterContactFrameCallback,
    MTDeviceStop, MTDeviceRelease, emit.
  split; exits_only_calls.
Qed.

Lemma multitouch_devices_exit_1 os :
  exits_only (λ c, c = 1) (Backend.multitouch_devices os).
Proof.
  unfold Backend.multitouch_devices, MTDeviceCreateList, CFArrayGetCount,
    fputs_stderr, CFRelease, emit.
  exits_only_calls.
Qed.

Lemma run_loop_exit_1 os :
  exits_only (λ c, c = 1) (CFRunLoopRun os (Backend.handlers os)).
Proof.
  unfold CFRunLoopRun, emit. exits_only_calls.
  pose proof (multitouch_devices_exit_1 os).
  lazymatch goal with |- exits_only _ (deliver _ ?d) => destruct d as [| |iter] end;
    cbn [deliver Backend.handlers on_touch on_pointer on_device];
    unfold Backend.touch_callback, Backend.mouse_callback,
      Backend.device_notification_callback, Backend.devices_refresh,
      CGEventSetType, CGEventSetIntegerValueField, emit.
  - exits_only_calls.
  - exits_only_calls.
  - exits_only_calls; apply (devices_walks_exit_1 _ Backend.touch_callback).
Qed.

Lemma listen_click_loop_exit_1 os :
  exits_only (λ c, c = 1) (Backend.listen_click_loop os) ∧
  exits_only (λ c, c = 1) (Main.listen_click_loop os).
Proof.
  pose proof (run_loop_exit_1 os) as Hrun.
  pose proof (run_loop_exit_1 os : exits_only _ (CFRunLoopRun os (Main.handlers os)))
    as Hrun'.
  assert (Hclean : ∀ devs, exits_only (λ c, c = 1) (Main.devices_cleanup devs)).
  { intros devs. apply (devices_walks_exit_1 devs Backend.touch_callback). }
  unfold Backend.listen_click_loop, Main.listen_click_loop, Backend.tap_loop,
    Main.tap_loop, Backend.stop_click_loop, CGEventTapCreate,
    CFMachPortCreateRunLoopSource, CFRunLoopAddSource, CFRunLoopRemoveSource,
    CFRelease, CGEventTapEnable, fputs_stderr, sleep, emit.
  split; exits_only_calls; apply Hclean.
Qed.

Lemma click_loops_exit_1 os fuel :
  exits_only (λ c, c = 1) (Backend.click_loop os fuel) ∧
  ∀ p, exits_only (λ c, c = 1) (Main.click_loop os fuel p).
Proof.
  destruct (listen_click_loop_exit_1 os) as [Hb Hm].
  assert (Hclean : ∀ devs, exits_only (λ c, c = 1) (Backend.devices_cleanup devs)).
  { intros devs. apply (devices_walks_exit_1 devs Backend.touch_callback). }
  assert (Hclean' : ∀ devs, exits_only (λ c, c = 1) (Main.devices_cleanup devs)).
  { exact Hclean. }
  induction fuel as [|fuel [IHb IHm]]; cbn [Backend.click_loop Main.click_loop].
  { split; [|intros p]; apply exits_only_running. }
  split; [|intros p].
  - apply exits_only_bind; [done|]. intros r. destruct (bool_decide _); [|done].
    unfold Backend.stop_io_notifications, IONotificationPortDestroy, emit.
    exits_only_calls; apply Hclean.
  - apply exits_only_bind; [done|]. intros r. destruct (bool_decide _); [|done].
    unfold IONotificationPortDestroy, emit.
    exits_only_calls; apply Hclean'.
Qed.

Lemma backend_main_exit_1 os fuel :
  exits_only (λ c, c = 1) (Backend.main os fuel).
Proof.
  pose proof (multitouch_devices_exit_1 os) as Hlist.
  destruct (click_loops_exit_1 os fuel) as [Hloop _].
  assert (Hio : exits_only (λ c, c = 1) (Backend.listen_io_notification os)).
  { apply always_returns_exits_only. intros w0. eexists _, _.
    apply listen_io_notification_unfold. }
  assert (Hstop : exits_only (λ c, c = 1) Backend.stop_io_notifications).
  { apply always_returns_exits_only. intros w0. eexists _, _.
    apply stop_io_notifications_unfold. }
  assert (Hclick : exits_only (λ c, c = 1) Backend.stop_click_loop).
  { apply always_returns_exits_only. intros w0. eexists _, _.
    apply stop_click_loop_unfold. }
  unfold Backend.main, Backend.new_state, Backend.run_click_loop,
    Backend.state_cleanup, fputs_stderr, emit.
  exits_only_calls; apply (devices_walks_exit_1 _ Backend.touch_callback).
Qed.

Lemma main_main_exit_1 os fuel :
  exits_only (λ c, c = 1) (Main.main os fuel).
Proof.
  pose proof (multitouch_devices_exit_1 os
              : exits_only _ (Main.multitouch_devices os)) as Hlist.
  destruct (click_loops_exit_1 os fuel) as [_ Hloop].
  assert (Hio : ∀ p, exits_only (λ c, c = 1) (Main.listen_io_notification os p)).
  { intros p. apply always_returns_exits_only. intros w0. eexists _, _.
    apply main_listen_io_notification_unfold. }
  unfold Main.main, IONotificationPortCreate, fputs_stderr, emit.
  exits_only_calls;
    first [ apply Hio | apply Hloop
          | apply (devices_walks_exit_1 _ Backend.touch_callback) ].
Qed.

Lemma main_click_loop_returns_1 os fuel p w r w' :
  Main.click_loop os fuel p w = (Returns r, w') → r = 1.
Proof.
  revert w. induction fuel as [|fuel IH]; intros w; cbn [Main.click_loop]; [done|].
  intros (r0 & w1 & _ & Hrest)%bind_returns.
  case_bool_decide; [|by eapply IH].
  apply bind_returns in Hrest as (st & ? & _ & Hrest).
  apply bind_returns in Hrest as ([] & ? & _ & Hrest).
  by apply bind_returns in Hrest as ([] & ? & _ & [= <- _]).
Qed.

(** X23: the only status either variant ever ends the process with is 1:
    every [exit] that the driver of backend.c or [main] of main.c can reach,
    also from inside a callback of the run loop, has status 1, and when
    [main] of main.c returns, it returns 1. *)
Theorem process_status_is_1 os fuel w :
  (∀ c, (Backend.main os fuel w).1 = Exits c → c = 1) ∧
  (∀ c, (Main.main os fuel w).1 = Exits c → c = 1) ∧
  (∀ r, (Main.main os fuel w).1 = Returns r → r = 1).
Proof.
  split; [apply backend_main_exit_1|]. split; [apply main_main_exit_1|].
  intros r Hr. destruct (Main.main os fuel w) as [o w'] eqn:Hmain.
  cbn in Hr. subst o. revert Hmain. unfold Main.main.
  intros (d & w1 & _ & Hrest)%bind_returns.
  apply bind_returns in Hrest as ([] & w2 & _ & Hrest).
  apply bind_returns in Hrest as ([] & w3 & _ & Hrest).
  apply bind_returns in Hrest as (p & w4 & _ & Hrest).
  apply bind_returns in Hrest as (kres & w5 & _ & Hrest).
  case_bool_decide; [|by eapply main_click_loop_returns_1].
  apply bind_returns in Hrest as ([] & ? & _ & Hrest).
  apply bind_returns in Hrest as (st & ? & _ & Hrest).
  apply bind_returns in Hrest as ([] & ? & _ & Hrest).
  by injection Hrest as <- _.
Qed.

(** ** The cycle and the start of main.c and backend.c *)



(** X25: a state that [new_state] returns is fresh: no port, no tap, no run
    loop source, and a device set that is not empty and can be walked. *)
Theorem new_state_is_fresh os w s w' :
  Backend.new_state os w = (Returns s, w') →
  port s = NULL ∧ tap_event s = NULL ∧ run_loop_src s = NULL ∧
  ∃ l, l ≠ [] ∧ members (cf_arrays w') (devices s) = Some l.
Proof.
  unfold Backend.new_state.
  intros (d & w1 & Hlist & [= <- <-])%bind_returns.
  repeat split.
  rewrite multitouch_devices_unfold in Hlist. cbv zeta in Hlist.
  case_bool_decide; [done|]. case_bool_decide as Hl; [done|].
  injection Hlist as <- <-.
  eexists. split; [exact Hl|]. apply members_whole. cbn. apply lookup_insert_eq.
Qed.

Lemma new_state_is_fresh_witness :
  let r := Backend.new_state denying_os (click_world 0 false 1) in
  ∃ s w', r = (Returns s, w') ∧
    port s = NULL ∧ tap_event s = NULL ∧ run_loop_src s = NULL ∧
    ∃ l, l ≠ [] ∧ members (cf_arrays w') (devices s) = Some l.
Proof.
  cbv zeta. eexists _, _. split; [vm_compute; reflexivity|].
  eapply (new_state_is_fresh denying_os (click_world 0 false 1)).
  vm_compute. reflexivity.
Defined.

(** [listen_click_loop] of main.c has just torn the devices down whenever it
    returns something other than 0. *)
Lemma main_listen_click_loop_fails_torn_down os w r w' :
  Main.listen_click_loop os w = (Returns r, w') →
  r ≠ 0 →
  ∃ hs before,
    members (cf_arrays w') (devices (state w')) = Some hs ∧
    trace w' = before ++ teardown_calls hs.
Proof.
  unfold Main.listen_click_loop.
  destruct main_device_functions as (_ & _ & -> & _).
  intros ([] & w0 & _ & Hrest)%bind_returns Hr.
  apply bind_returns in Hrest as ([] & w1 & _ & Hrest).
  apply bind_returns in Hrest as (st & ? & [= <- <-] & Hrest).
  case_bool_decide.
  { apply bind_returns in Hrest as ([] & w2 & [= <-] & Hrest).
    apply bind_returns in Hrest as ([] & w3 & Hclean & [= <- <-]).
    apply devices_cleanup_returns in Hclean as (hs & Hhs & ->).
    exists hs. eexists. split; [exact Hhs | reflexivity]. }
  apply bind_returns in Hrest as (src & w2 & _ & Hrest).
  apply bind_returns in Hrest as ([] & w3 & [= <-] & Hrest).
  apply bind_returns in Hrest as (st & ? & [= <- <-] & Hrest).
  case_bool_decide.
  { apply bind_returns in Hrest as ([] & w4 & [= <-] & Hrest).
    apply bind_returns in Hrest as ([] & w5 & Hclean & [= <- <-]).
    apply devices_cleanup_returns in Hclean as (hs & Hhs & ->).
    exists hs. eexists. split; [exact Hhs | reflexivity]. }
  apply bind_returns in Hrest as ([] & w4 & _ & Hrest).
  apply bind_returns in Hrest as ([] & w5 & _ & Hrest).
  apply bind_returns in Hrest as ([] & w6 & _ & Hrest).
  apply bind_returns in Hrest as (st & ? & _ & Hrest).
  apply bind_returns in Hrest as ([] & w7 & _ & Hrest).
  apply bind_returns in Hrest as ([] & w8 & _ & Hrest).
  apply bind_returns in Hrest as ([] & w9 & _ & Hrest).
  by apply bind_returns in Hrest as ([] & w10 & _ & [= <- _]).
Qed.

(** X26: main.c tears the devices down twice as well.  Whenever the
    [for (;;)] of its [main] is left, [listen_click_loop] has torn the set
    down on its way out and [main] has torn the same set down again right
    after, before it destroys the port: every handle of the set is
    unregistered, stopped and released twice in a row. *)
Theorem main_teardown_runs_twice os fuel p w r w' :
  Main.click_loop os fuel p w = (Returns r, w') →
  r = 1 ∧
  ∃ hs before,
    members (cf_arrays w') (devices (state w')) = Some hs ∧
    trace w' = before ++ teardown_calls hs ++ teardown_calls hs ++
               [call_IONotificationPortDestroy p].
Proof.
  revert w. induction fuel as [|fuel IH]; intros w; cbn [Main.click_loop]; [done|].
  intros (r0 & w1 & Hloop & Hrest)%bind_returns.
  case_bool_decide as Hr; [|by eapply IH].
  apply (main_listen_click_loop_fails_torn_down _ _ _ _ Hloop) in Hr
    as (hs & before & Hhs & Htrace).
  destruct main_device_functions as (_ & _ & Heq & _). rewrite Heq in Hrest.
  apply bind_returns in Hrest as (st & ? & [= <- <-] & Hrest).
  apply bind_returns in Hrest as ([] & w2 & Hclean & Hrest).
  apply bind_returns in Hrest as ([] & w3 & [= <-] & [= <- <-]).
  apply devices_cleanup_returns in Hclean as (hs' & Hhs' & ->).
  rewrite Hhs in Hhs'. injection Hhs' as <-.
  split; [done|]. exists hs, before. split; [done|].
  cbn. rewrite Htrace. by rewrite <- !app_assoc.
Qed.

Lemma main_teardown_runs_twice_witness :
  let r := Main.click_loop denying_os 1 60 two_devices_world in
  1 = 1 ∧
  ∃ hs before,
    members (cf_arrays r.2) (devices (state r.2)) = Some hs ∧
    trace r.2 = before ++ teardown_calls hs ++ teardown_calls hs ++
                [call_IONotificationPortDestroy 60].
Proof.
  cbv zeta. apply (main_teardown_runs_twice denying_os 1 60 two_devices_world).
  vm_compute. reflexivity.
Defined.
